(** * Healthcare backend: the views and serializers of the [api] application

    A shallow embedding of [api/views.py] and [api/serializers.py].  The
    relational store is a record of finite maps from primary keys to rows, a
    view method is a computation in a state-and-exception monad over that
    store, and a serializer is the list of its fields together with the two
    generic passes of the REST framework over such a list
    ([to_internal_value] on the way in, [to_representation] on the way out). *)

From Stdlib Require Import ZArith String.
From stdpp Require Import base option list strings gmap fin_maps.

Local Open Scope Z_scope.

(** ** Values on the wire *)

(** A scalar of a parsed request body or of a rendered response. *)
Inductive JVal :=
  | JNull
  | JInt (z : Z)
  | JStr (s : string).

#[global] Instance JVal_eq_dec : EqDecision JVal.
Proof. solve_decision. Defined.

(** A Python [dict] with string keys: request bodies, validated data,
    serializer output. *)
Abbreviation Dict := (gmap string JVal).

(** ** Exceptions and responses *)

Inductive Exn :=
  | Http404                                     (* django.http.Http404 *)
  | ValidationError (detail : gmap string string) (* rest_framework.exceptions *)
  | DjangoValidationError (message : string)    (* django.core.exceptions *)
  | ValueError
  | KeyError (key : string)
  | IntegrityError.

#[global] Instance Exn_eq_dec : EqDecision Exn.
Proof. solve_decision. Defined.

Inductive Body :=
  | Object (d : Dict)
  | Array (l : list Dict)
  | NoBody.

#[global] Instance Body_eq_dec : EqDecision Body.
Proof. solve_decision. Defined.

(** [Response(data, status=...)]. *)
Record Response := mkResponse { data : Body; status : Z }.

#[global] Instance Response_eq_dec : EqDecision Response.
Proof. solve_decision. Defined.

Definition HTTP_200_OK : Z := 200.
Definition HTTP_201_CREATED : Z := 201.
Definition HTTP_204_NO_CONTENT : Z := 204.
Definition HTTP_400_BAD_REQUEST : Z := 400.
Definition HTTP_403_FORBIDDEN : Z := 403.
Definition HTTP_404_NOT_FOUND : Z := 404.
Definition HTTP_500_INTERNAL_SERVER_ERROR : Z := 500.

(** [{'error': msg}], the body of the three hand-written refusals. *)
Definition error_body (msg : string) : Body := Object {[ "error" := JStr msg ]}.

(** ** The models *)

(** Modelled from the spec: [api/models.py] is not part of the sources at
    hand.  The rows below carry what section 3 of the specification and the
    attribute accesses of the views say about them: a patient belongs to one
    user and has demographic attributes and two server-side timestamps, a
    doctor has professional attributes and the same timestamps, a mapping
    links one patient and one doctor and has a server-side assignment date.
    The attributes whose names the sources do not give are kept as a
    dictionary.  [User] is the user model of [django.contrib.auth]. *)
Module User.
Record t := mk {
    username : string;
    email : string;
    password : string;    (* the hash, never the raw password *)
    is_staff : bool }.
End User.

Module Patient.
Record t := mk {
    user : Z;             (* foreign key to User *)
    attrs : Dict;
    created_at : Z;
    updated_at : Z }.
End Patient.

Module Doctor.
Record t := mk {
    attrs : Dict;
    created_at : Z;
    updated_at : Z }.
End Doctor.

Module PatientDoctorMapping.
Record t := mk {
    patient : Z;          (* foreign key to Patient *)
    doctor : Z;           (* foreign key to Doctor *)
    assigned_date : Z }.
End PatientDoctorMapping.

#[global] Instance User_eq_dec : EqDecision User.t.
Proof. solve_decision. Defined.
#[global] Instance Patient_eq_dec : EqDecision Patient.t.
Proof. solve_decision. Defined.
#[global] Instance Doctor_eq_dec : EqDecision Doctor.t.
Proof. solve_decision. Defined.
#[global] Instance PatientDoctorMapping_eq_dec : EqDecision PatientDoctorMapping.t.
Proof. solve_decision. Defined.

(** The relational store: one table per model, keyed by primary key. *)
Record DB := mkDB {
  users : gmap Z User.t;
  patients : gmap Z Patient.t;
  doctors : gmap Z Doctor.t;
  mappings : gmap Z PatientDoctorMapping.t }.

#[global] Instance DB_eq_dec : EqDecision DB.
Proof. solve_decision. Defined.

Definition empty_db : DB := mkDB ∅ ∅ ∅ ∅.

Definition set_users (f : gmap Z User.t → gmap Z User.t) (db : DB) : DB :=
  mkDB (f (users db)) (patients db) (doctors db) (mappings db).
Definition set_patients (f : gmap Z Patient.t → gmap Z Patient.t) (db : DB) : DB :=
  mkDB (users db) (f (patients db)) (doctors db) (mappings db).
Definition set_doctors (f : gmap Z Doctor.t → gmap Z Doctor.t) (db : DB) : DB :=
  mkDB (users db) (patients db) (f (doctors db)) (mappings db).
Definition set_mappings
    (f : gmap Z PatientDoctorMapping.t → gmap Z PatientDoctorMapping.t) (db : DB) : DB :=
  mkDB (users db) (patients db) (doctors db) (f (mappings db)).

(** The key the database gives to the next row of a table. *)
Definition next_pk {A} (table : gmap Z A) : Z := fresh ({[0]} ∪ dom table).

(** ** Requests *)

(** A request that went through authentication: [request_user] is the primary
    key of [request.user], [request_data] the parsed body,
    [request_query_params] the query string and [request_now] the reading of
    the server clock while the request is served. *)
Record Request := mkRequest {
  request_user : Z;
  request_data : Dict;
  request_query_params : gmap string string;
  request_now : Z }.

(** ** The monad of a view: the store is threaded, an exception stops the view *)

Definition M (A : Type) : Type := DB → DB * (Exn + A).

Definition unit_M {A} (a : A) : M A := λ db, (db, inr a).
Definition raise {A} (e : Exn) : M A := λ db, (db, inl e).
Definition bind {A B} (m : M A) (k : A → M B) : M B :=
  λ db, match m db with
        | (db', inr a) => k a db'
        | (db', inl e) => (db', inl e)
        end.
Definition get : M DB := λ db, (db, inr db).
Definition modify (f : DB → DB) : M unit := λ db, (f db, inr tt).
(** [try: m except e: h e]. *)
Definition try_except {A} (m : M A) (h : Exn → M A) : M A :=
  λ db, match m db with
        | (db', inl e) => h e db'
        | r => r
        end.

#[global] Instance M_ret : MRet M := @unit_M.
#[global] Instance M_bind : MBind M := λ A B k m, bind m k.

(** What the client gets when the view raises: the exception handler of the
    REST framework turns [Http404] and its own [ValidationError] into
    responses, anything else is a server error. *)
Definition detail_body (detail : gmap string string) : Body :=
  Object (JStr <$> detail).

Definition exception_handler (e : Exn) : Response :=
  match e with
  | Http404 => mkResponse (Object {[ "detail" := JStr "Not found." ]}) HTTP_404_NOT_FOUND
  | ValidationError detail => mkResponse (detail_body detail) HTTP_400_BAD_REQUEST
  | _ => mkResponse NoBody HTTP_500_INTERNAL_SERVER_ERROR
  end.

Definition finalize (r : Exn + Response) : Response :=
  match r with
  | inr resp => resp
  | inl e => exception_handler e
  end.

(** [dispatch view db]: the store after the view and the response sent. *)
Definition dispatch (view : M Response) (db : DB) : DB * Response :=
  let '(db', r) := view db in (db', finalize r).

(** ** What the framework and the model declarations provide *)

(** A serializer field: its name, the three flags the serializers of this
    application set or inherit, and [run_validation], the conversion of a
    submitted value to its validated form or to an error message. *)
Record Field := mkField {
  field_name : string;
  read_only : bool;
  write_only : bool;
  required : bool;
  run_validation : JVal → string + JVal }.

(** The parts of Python, Django and the REST framework the views rely on and
    whose details the application does not fix: [py_int s] is [int(s)] on a
    string ([None] when it raises [ValueError]), [make_password] the password
    hasher, [normalize_username] and [normalize_email] the normal forms
    [create_user] stores (NFKC for the name, a lower-case domain for the
    address), and the three [_field] functions are the validation of one
    submitted value by the character fields of [UserSerializer] (its result
    is the cleaned string), the uniqueness check apart. *)
Class Django := {
  py_int : string → option Z;
  make_password : string → string;
  normalize_username : string → string;
  normalize_email : string → string;
  username_field : JVal → string + string;
  email_field : JVal → string + string;
  password_field : JVal → string + string }.

(** The attribute columns [api/models.py] declares for patients and doctors,
    as the fields a model serializer builds for them. *)
Class Models := {
  Patient_attrs : list Field;
  Doctor_attrs : list Field }.

Section Framework.
Context `{Django}.

  (** *** The object-relational mapper *)

  (** The value of an exact lookup on an integer column: [None] asks for
      NULL and a string goes through [int()]. *)
Definition get_prep_value (v : option JVal) : M (option Z) :=
    match v with
    | None | Some JNull => mret None
    | Some (JInt z) => mret (Some z)
    | Some (JStr s) =>
        match py_int s with
        | Some z => mret (Some z)
        | None => raise ValueError
        end
    end.

  (** [django.shortcuts.get_object_or_404(Model, id=id)]: the row and its
      key. *)
Definition get_object_or_404 {A} (objects : DB → gmap Z A) (id : option JVal)
      : M (Z * A) :=
    pk ← get_prep_value id;
    db ← get;
    match pk ≫= λ z, (z,.) <$> objects db !! z with
    | Some instance => mret instance
    | None => raise Http404
    end.

  (** [GenericAPIView.get_object]: the row of the view's queryset whose key
      is the one of the URL.  [pk] is that key read as a number (a key that is
      no number is answered like an unknown one). *)
Definition get_object {A} (get_queryset : M (gmap Z A)) (pk : Z) : M (Z * A) :=
    queryset ← get_queryset;
    match queryset !! pk with
    | Some instance => mret (pk, instance)
    | None => raise Http404
    end.

  (** *** Serializers *)

  (** One pass over the writable fields: read-only fields are skipped, a
      missing required field and a value its field rejects are reported under
      the field's name. *)
Fixpoint to_internal_value (partial : bool) (fields : list Field) (data : Dict)
      : gmap string string * Dict :=
    match fields with
    | [] => (∅, ∅)
    | f :: fields =>
        let '(errors, validated) := to_internal_value partial fields data in
        if read_only f then (errors, validated) else
        match data !! field_name f with
        | None =>
            if required f && negb partial
            then (<[field_name f := "This field is required."%string]> errors, validated)
            else (errors, validated)
        | Some v =>
            match run_validation f v with
            | inl message => (<[field_name f := message]> errors, validated)
            | inr v' => (errors, <[field_name f := v']> validated)
            end
        end
    end.

  (** [serializer.is_valid(raise_exception=True)], giving
      [serializer.validated_data]. *)
Definition is_valid (partial : bool) (fields : list Field) (data : Dict) : M Dict :=
    let '(errors, validated) := to_internal_value partial fields data in
    if decide (errors = ∅) then mret validated else raise (ValidationError errors).

  (** [serializer.data]: every field that is not write-only, read off the
      instance. *)
Definition to_representation (fields : list Field) (getattr : string → JVal) : Dict :=
    list_to_map
      ((λ f, (field_name f, getattr (field_name f)))
         <$> filter (λ f, write_only f = false) fields).

  (** [Meta.read_only_fields]. *)
Definition with_read_only_fields (names : list string) (fields : list Field)
      : list Field :=
    (λ f, if bool_decide (field_name f ∈ names)
          then mkField (field_name f) true (write_only f) (required f) (run_validation f)
          else f) <$> fields.

  (** [serializer.save] with keyword arguments, on a serializer without
      instance: the keyword arguments are laid over the validated data. *)
Definition save {A} (create : Dict → M A) (validated_data kwargs : Dict) : M A :=
    create (kwargs ∪ validated_data).

  (** The fields a model serializer builds for the columns of the models. *)
Definition AutoField (name : string) : Field :=
    mkField name true false false inr.

Definition DateTimeField (name : string) : Field :=
    mkField name false false true
      (λ v, match v with
            | JInt _ => inr v
            | _ => inl "Datetime has wrong format."%string
            end).

Definition PrimaryKeyRelatedField {A} (name : string) (queryset : gmap Z A) : Field :=
    mkField name false false true
      (λ v, match v with
            | JNull => inl "This field may not be null."%string
            | JInt z =>
                match queryset !! z with
                | Some _ => inr (JInt z)
                | None => inl "Invalid pk - object does not exist."%string
                end
            | JStr s =>
                match py_int s with
                | Some z =>
                    match queryset !! z with
                    | Some _ => inr (JInt z)
                    | None => inl "Invalid pk - object does not exist."%string
                    end
                | None => inl "Incorrect type. Expected pk value."%string
                end
            end).

Definition CharField (name : string) (required write_only : bool)
      (clean : JVal → string + string) : Field :=
    mkField name false write_only required
      (λ v, match clean v with
            | inl message => inl message
            | inr s => inr (JStr s)
            end).

  (** [validated_data[key]]. *)
Definition getitem (d : Dict) (key : string) : M JVal :=
    match d !! key with
    | Some v => mret v
    | None => raise (KeyError key)
    end.
End Framework.

(** ** [api/serializers.py] *)

Module UserSerializer.
Section UserSerializer.
Context `{Django}.

  (** The uniqueness validator a model serializer adds for [User.username]. *)
Definition UniqueValidator (db : DB) (clean : JVal → string + string) (v : JVal)
      : string + string :=
    match clean v with
    | inl message => inl message
    | inr s =>
        if bool_decide (filter (λ '(_, u), User.username u = s) (users db) = ∅)
        then inr s
        else inl "A user with that username already exists."%string
    end.

  (** [fields = ('id', 'username', 'email', 'password')] with
      [password = CharField(write_only=True)].  The user model of
      [django.contrib.auth] declares [email] with [blank=True], for which a
      model serializer builds a field that is not required. *)
Definition fields (db : DB) : list Field :=
    [ AutoField "id";
      CharField "username" true false (UniqueValidator db username_field);
      CharField "email" false false email_field;
      CharField "password" true true password_field ].

  (** [User.objects.create_user(username=, email=, password=)]: an empty
      name is refused, name and address are put in normal form, the password
      is hashed, and the row is inserted; the column [username] is unique, so
      the insertion of a name that is in the table raises [IntegrityError]. *)
Definition create_user (username email password : JVal) : M (Z * User.t) :=
    match username, email, password with
    | JStr username, JStr email, JStr password =>
        if bool_decide (username = ""%string) then raise ValueError else
        let email := normalize_email email in
        let username := normalize_username username in
        db ← get;
        if bool_decide (filter (λ '(_, u), User.username u = username) (users db) = ∅)
        then
          let pk := next_pk (users db) in
          let user := User.mk username email (make_password password) false in
          modify (set_users (insert pk user));;
          mret (pk, user)
        else raise IntegrityError
    | _, _, _ => raise ValueError
    end.

Definition create (validated_data : Dict) : M (Z * User.t) :=
    username ← getitem validated_data "username";
    email ← getitem validated_data "email";
    password ← getitem validated_data "password";
    create_user username email password.

Definition getattr (instance : Z * User.t) (name : string) : JVal :=
    if decide (name = "id") then JInt instance.1
    else if decide (name = "username") then JStr (User.username instance.2)
    else if decide (name = "email") then JStr (User.email instance.2)
    else if decide (name = "password") then JStr (User.password instance.2)
    else JNull.

  (** [UserSerializer(instance).data]. *)
Definition data (db : DB) (instance : Z * User.t) : Dict :=
    to_representation (fields db) (getattr instance).
End UserSerializer.
End UserSerializer.

Module PatientSerializer.
Section PatientSerializer.
Context `{Django} `{Models}.

  (** [fields = '__all__']: the columns of the model. *)
Definition model_fields (db : DB) : list Field :=
    [ AutoField "id"; PrimaryKeyRelatedField "user" (users db) ]
      ++ Patient_attrs
      ++ [ DateTimeField "created_at"; DateTimeField "updated_at" ].

Definition read_only_fields : list string := [ "user"; "created_at"; "updated_at" ]%string.

Definition fields (db : DB) : list Field :=
    with_read_only_fields read_only_fields (model_fields db).

  (** [Patient.objects.create] with the validated data as keyword arguments. *)
Definition create (now : Z) (validated_data : Dict) : M (Z * Patient.t) :=
    match validated_data !! "user" with
    | Some (JInt user) =>
        db ← get;
        let pk := next_pk (patients db) in
        let patient := Patient.mk user (delete "user" validated_data) now now in
        modify (set_patients (insert pk patient));;
        mret (pk, patient)
    | _ => raise IntegrityError
    end.

  (** [ModelSerializer.update]: the validated attributes are set on the
      instance, which is then saved. *)
Definition update (now : Z) (instance : Z * Patient.t) (validated_data : Dict)
      : M (Z * Patient.t) :=
    let user := match validated_data !! "user" with
                | Some (JInt user) => user
                | _ => Patient.user instance.2
                end in
    let patient :=
      Patient.mk user (delete "user" validated_data ∪ Patient.attrs instance.2)
        (Patient.created_at instance.2) now in
    modify (set_patients (insert instance.1 patient));;
    mret (instance.1, patient).

Definition getattr (instance : Z * Patient.t) (name : string) : JVal :=
    if decide (name = "id") then JInt instance.1
    else if decide (name = "user") then JInt (Patient.user instance.2)
    else if decide (name = "created_at") then JInt (Patient.created_at instance.2)
    else if decide (name = "updated_at") then JInt (Patient.updated_at instance.2)
    else default JNull (Patient.attrs instance.2 !! name).

Definition data (db : DB) (instance : Z * Patient.t) : Dict :=
    to_representation (fields db) (getattr instance).
End PatientSerializer.
End PatientSerializer.

Module DoctorSerializer.
Section DoctorSerializer.
Context `{Django} `{Models}.

Definition model_fields : list Field :=
    [ AutoField "id" ] ++ Doctor_attrs
      ++ [ DateTimeField "created_at"; DateTimeField "updated_at" ].

Definition read_only_fields : list string := [ "created_at"; "updated_at" ]%string.

Definition fields : list Field := with_read_only_fields read_only_fields model_fields.

Definition create (now : Z) (validated_data : Dict) : M (Z * Doctor.t) :=
    db ← get;
    let pk := next_pk (doctors db) in
    let doctor := Doctor.mk validated_data now now in
    modify (set_doctors (insert pk doctor));;
    mret (pk, doctor).

Definition getattr (instance : Z * Doctor.t) (name : string) : JVal :=
    if decide (name = "id") then JInt instance.1
    else if decide (name = "created_at") then JInt (Doctor.created_at instance.2)
    else if decide (name = "updated_at") then JInt (Doctor.updated_at instance.2)
    else default JNull (Doctor.attrs instance.2 !! name).

Definition data (instance : Z * Doctor.t) : Dict :=
    to_representation fields (getattr instance).
End DoctorSerializer.
End DoctorSerializer.

Module PatientDoctorMappingSerializer.
Section PatientDoctorMappingSerializer.
Context `{Django}.

Definition model_fields (db : DB) : list Field :=
    [ AutoField "id";
      PrimaryKeyRelatedField "patient" (patients db);
      PrimaryKeyRelatedField "doctor" (doctors db);
      DateTimeField "assigned_date" ].

Definition read_only_fields : list string := [ "assigned_date" ]%string.

Definition fields (db : DB) : list Field :=
    with_read_only_fields read_only_fields (model_fields db).

Definition create (now : Z) (validated_data : Dict) : M (Z * PatientDoctorMapping.t) :=
    match validated_data !! "patient", validated_data !! "doctor" with
    | Some (JInt patient), Some (JInt doctor) =>
        db ← get;
        let pk := next_pk (mappings db) in
        let mapping := PatientDoctorMapping.mk patient doctor now in
        modify (set_mappings (insert pk mapping));;
        mret (pk, mapping)
    | _, _ => raise IntegrityError
    end.

(** [ModelSerializer.update], which the serializer inherits: the validated
    attributes are set on the instance, which is then saved under its key. *)
Definition update (instance : Z * PatientDoctorMapping.t) (validated_data : Dict)
      : M (Z * PatientDoctorMapping.t) :=
    let patient := match validated_data !! "patient" with
                   | Some (JInt patient) => patient
                   | _ => PatientDoctorMapping.patient instance.2
                   end in
    let doctor := match validated_data !! "doctor" with
                  | Some (JInt doctor) => doctor
                  | _ => PatientDoctorMapping.doctor instance.2
                  end in
    let mapping :=
      PatientDoctorMapping.mk patient doctor
        (PatientDoctorMapping.assigned_date instance.2) in
    modify (set_mappings (insert instance.1 mapping));;
    mret (instance.1, mapping).

Definition getattr (instance : Z * PatientDoctorMapping.t) (name : string) : JVal :=
    if decide (name = "id") then JInt instance.1
    else if decide (name = "patient") then JInt (PatientDoctorMapping.patient instance.2)
    else if decide (name = "doctor") then JInt (PatientDoctorMapping.doctor instance.2)
    else if decide (name = "assigned_date")
         then JInt (PatientDoctorMapping.assigned_date instance.2)
    else JNull.

Definition data (db : DB) (instance : Z * PatientDoctorMapping.t) : Dict :=
    to_representation (fields db) (getattr instance).
End PatientDoctorMappingSerializer.
End PatientDoctorMappingSerializer.

(** ** [api/views.py] *)

Module RegisterView.
Section RegisterView.
Context `{Django}.

(** [CreateAPIView.post], with [serializer_class = UserSerializer].  The view
    is open to anonymous callers and reads the body of the request only. *)
Definition create (request : Request) : M Response :=
  db ← get;
  validated_data ← is_valid false (UserSerializer.fields db) (request_data request);
  user ← save UserSerializer.create validated_data ∅;
  db ← get;
  mret (mkResponse (Object (UserSerializer.data db user)) HTTP_201_CREATED).
End RegisterView.
End RegisterView.

(** [request.user] of a view that is open to anyone: the anonymous user, or
    the user of the given primary key. *)
Inductive Caller :=
  | AnonymousUser
  | Authenticated (pk : Z).

#[global] Instance Caller_eq_dec : EqDecision Caller.
Proof. solve_decision. Defined.

Module UserViewSet.
Section UserViewSet.
Context `{Django}.

(** [request.user.id]: [None] for the anonymous user. *)
Definition id (user : Caller) : option Z :=
  match user with
  | AnonymousUser => None
  | Authenticated pk => Some pk
  end.

(** [request.user.is_staff]: false for the anonymous user, the column of the
    row otherwise. *)
Definition is_staff (db : DB) (user : Caller) : bool :=
  match user with
  | AnonymousUser => false
  | Authenticated pk => default false (User.is_staff <$> users db !! pk)
  end.

Definition get_queryset (user : Caller) : M (gmap Z User.t) :=
  db ← get;
  if is_staff db user then mret (users db)
  else mret (filter (λ '(pk, _), Some pk = id user) (users db)).

(** [ListModelMixin.list]. *)
Definition list (user : Caller) : M Response :=
  queryset ← get_queryset user;
  db ← get;
  mret (mkResponse (Array (UserSerializer.data db <$> map_to_list queryset))
          HTTP_200_OK).

(** [RetrieveModelMixin.retrieve]. *)
Definition retrieve (user : Caller) (pk : Z) : M Response :=
  instance ← get_object (get_queryset user) pk;
  db ← get;
  mret (mkResponse (Object (UserSerializer.data db instance)) HTTP_200_OK).
End UserViewSet.
End UserViewSet.

Module PatientViewSet.
Section PatientViewSet.
Context `{Django} `{Models}.

Definition get_queryset (request : Request) : M (gmap Z Patient.t) :=
  db ← get;
  mret (filter (λ '(_, patient), Patient.user patient = request_user request)
          (patients db)).

Definition perform_create (request : Request) (validated_data : Dict)
    : M (Z * Patient.t) :=
  save (PatientSerializer.create (request_now request)) validated_data
    {[ "user" := JInt (request_user request) ]}.

(** [ListModelMixin.list]. *)
Definition list (request : Request) : M Response :=
  queryset ← get_queryset request;
  db ← get;
  mret (mkResponse (Array (PatientSerializer.data db <$> map_to_list queryset))
          HTTP_200_OK).

(** [CreateModelMixin.create]. *)
Definition create (request : Request) : M Response :=
  db ← get;
  validated_data ← is_valid false (PatientSerializer.fields db) (request_data request);
  patient ← perform_create request validated_data;
  db ← get;
  mret (mkResponse (Object (PatientSerializer.data db patient)) HTTP_201_CREATED).

(** [UpdateModelMixin.update], the [super().update] of the view. *)
Definition super_update (request : Request) (pk : Z) (partial : bool) : M Response :=
  instance ← get_object (get_queryset request) pk;
  db ← get;
  validated_data ← is_valid partial (PatientSerializer.fields db) (request_data request);
  patient ← PatientSerializer.update (request_now request) instance validated_data;
  db ← get;
  mret (mkResponse (Object (PatientSerializer.data db patient)) HTTP_200_OK).

(** [partial] is the keyword argument [partial_update] passes on a PATCH. *)
Definition update (request : Request) (pk : Z) (partial : bool) : M Response :=
  patient ← get_object (get_queryset request) pk;
  if decide (Patient.user patient.2 ≠ request_user request) then
    mret (mkResponse
            (error_body "You do not have permission to update this patient.")
            HTTP_403_FORBIDDEN)
  else super_update request pk partial.

(** [RetrieveModelMixin.retrieve]. *)
Definition retrieve (request : Request) (pk : Z) : M Response :=
  instance ← get_object (get_queryset request) pk;
  db ← get;
  mret (mkResponse (Object (PatientSerializer.data db instance)) HTTP_200_OK).
End PatientViewSet.
End PatientViewSet.

Module DoctorViewSet.
Section DoctorViewSet.
Context `{Django} `{Models}.

Definition perform_create (request : Request) (validated_data : Dict)
    : M (Z * Doctor.t) :=
  try_except
    (save (DoctorSerializer.create (request_now request)) validated_data ∅)
    (λ e, match e with
          | DjangoValidationError message => raise (DjangoValidationError message)
          | _ => raise e
          end).

(** [CreateModelMixin.create]. *)
Definition create (request : Request) : M Response :=
  validated_data ← is_valid false DoctorSerializer.fields (request_data request);
  doctor ← perform_create request validated_data;
  mret (mkResponse (Object (DoctorSerializer.data doctor)) HTTP_201_CREATED).

(** [queryset = Doctor.objects.all()]. *)
Definition get_queryset (request : Request) : M (gmap Z Doctor.t) :=
  db ← get;
  mret (doctors db).

(** [ListModelMixin.list]. *)
Definition list (request : Request) : M Response :=
  queryset ← get_queryset request;
  mret (mkResponse (Array (DoctorSerializer.data <$> map_to_list queryset))
          HTTP_200_OK).
End DoctorViewSet.
End DoctorViewSet.

Module PatientDoctorMappingViewSet.
Section PatientDoctorMappingViewSet.
Context `{Django}.

(** [patient__user]: the owner of the patient a mapping refers to. *)
Definition patient__user (db : DB) (mapping : PatientDoctorMapping.t) : option Z :=
  Patient.user <$> patients db !! PatientDoctorMapping.patient mapping.

(** Truth value of [query_params.get('patient_id')]: a string is true unless
    it is empty, [None] is false. *)
Definition truthy (v : option string) : bool :=
  match v with
  | Some s => negb (bool_decide (s = ""%string))
  | None => false
  end.

Definition get_queryset (request : Request) : M (gmap Z PatientDoctorMapping.t) :=
  db ← get;
  let base_queryset := mappings db in
  let patient_id := request_query_params request !! "patient_id" in
  if truthy patient_id then
    patient_id ← get_prep_value (JStr <$> patient_id);
    mret (filter (λ '(_, mapping),
                    Some (PatientDoctorMapping.patient mapping) = patient_id
                    ∧ patient__user db mapping = Some (request_user request))
            base_queryset)
  else
    mret (filter (λ '(_, mapping),
                    patient__user db mapping = Some (request_user request))
            base_queryset).

(** [ListModelMixin.list]. *)
Definition list (request : Request) : M Response :=
  queryset ← get_queryset request;
  db ← get;
  mret (mkResponse
          (Array (PatientDoctorMappingSerializer.data db <$> map_to_list queryset))
          HTTP_200_OK).

(** [CreateModelMixin.create], the [super().create] of the view. *)
Definition super_create (request : Request) : M Response :=
  db ← get;
  validated_data ←
    is_valid false (PatientDoctorMappingSerializer.fields db) (request_data request);
  mapping ←
    save (PatientDoctorMappingSerializer.create (request_now request)) validated_data ∅;
  db ← get;
  mret (mkResponse (Object (PatientDoctorMappingSerializer.data db mapping))
          HTTP_201_CREATED).

(** [PatientDoctorMapping.objects.filter(patient_id=, doctor_id=).exists()]. *)
Definition mapping_exists (patient_id doctor_id : option JVal) : M bool :=
  patient_id ← get_prep_value patient_id;
  doctor_id ← get_prep_value doctor_id;
  db ← get;
  mret (negb (bool_decide
                (filter (λ '(_, mapping),
                           Some (PatientDoctorMapping.patient mapping) = patient_id
                           ∧ Some (PatientDoctorMapping.doctor mapping) = doctor_id)
                   (mappings db) = ∅))).

Definition create (request : Request) : M Response :=
  let patient_id := request_data request !! "patient" in
  let doctor_id := request_data request !! "doctor" in
  (* Validate patient ownership *)
  patient ← get_object_or_404 patients patient_id;
  if decide (Patient.user patient.2 ≠ request_user request) then
    mret (mkResponse
            (error_body "You do not have permission to assign this patient.")
            HTTP_403_FORBIDDEN)
  else
    (* Validate doctor exists *)
    get_object_or_404 doctors doctor_id;;
    (* Check for existing mapping *)
    exists_ ← mapping_exists patient_id doctor_id;
    if exists_ : bool then
      mret (mkResponse
              (error_body "This patient is already assigned to this doctor.")
              HTTP_400_BAD_REQUEST)
    else super_create request.

(** [DestroyModelMixin.destroy], the [super().destroy] of the view. *)
Definition super_destroy (request : Request) (pk : Z) : M Response :=
  instance ← get_object (get_queryset request) pk;
  modify (set_mappings (delete instance.1));;
  mret (mkResponse NoBody HTTP_204_NO_CONTENT).

Definition destroy (request : Request) (pk : Z) : M Response :=
  mapping ← get_object (get_queryset request) pk;
  db ← get;
  if decide (patient__user db mapping.2 ≠ Some (request_user request)) then
    mret (mkResponse
            (error_body "You do not have permission to remove this mapping.")
            HTTP_403_FORBIDDEN)
  else super_destroy request pk.

(** [UpdateModelMixin.update], which the viewset inherits from [ModelViewSet]
    and does not override: it serves PUT and PATCH on a mapping of the
    caller's queryset. [partial] is the keyword argument [partial_update]
    passes on a PATCH. *)
Definition update (request : Request) (pk : Z) (partial : bool) : M Response :=
  instance ← get_object (get_queryset request) pk;
  db ← get;
  validated_data ←
    is_valid partial (PatientDoctorMappingSerializer.fields db) (request_data request);
  mapping ← PatientDoctorMappingSerializer.update instance validated_data;
  db ← get;
  mret (mkResponse (Object (PatientDoctorMappingSerializer.data db mapping))
          HTTP_200_OK).
End PatientDoctorMappingViewSet.
End PatientDoctorMappingViewSet.

(** ** The application as a transition system *)

(** The calls the properties below are stated over: the view methods the
    application defines or configures, and the update of a mapping that
    [PatientDoctorMappingViewSet] inherits. Each call is served alone, from
    the store the previous one left.

    The list is not the whole interface. The viewsets inherit further actions
    from [ModelViewSet]: deleting a patient, updating and deleting a doctor,
    and creating, updating and deleting a user through [UserViewSet]. What a
    delete does to the rows that refer to the deleted one is declared in
    models.py, so these actions are left out, and [reachable] below covers the
    stores the listed calls lead to, not every store of the application. *)
Inductive Call :=
  | Register (request : Request)
  | ListPatients (request : Request)
  | CreatePatient (request : Request)
  | UpdatePatient (request : Request) (pk : Z) (partial : bool)
  | CreateDoctor (request : Request)
  | ListMappings (request : Request)
  | CreateMapping (request : Request)
  | DestroyMapping (request : Request) (pk : Z)
  | UpdateMapping (request : Request) (pk : Z) (partial : bool).

Section Application.
Context `{Django} `{Models}.

Definition view (call : Call) : M Response :=
  match call with
  | Register request => RegisterView.create request
  | ListPatients request => PatientViewSet.list request
  | CreatePatient request => PatientViewSet.create request
  | UpdatePatient request pk partial => PatientViewSet.update request pk partial
  | CreateDoctor request => DoctorViewSet.create request
  | ListMappings request => PatientDoctorMappingViewSet.list request
  | CreateMapping request => PatientDoctorMappingViewSet.create request
  | DestroyMapping request pk => PatientDoctorMappingViewSet.destroy request pk
  | UpdateMapping request pk partial =>
      PatientDoctorMappingViewSet.update request pk partial
  end.

Definition serve (call : Call) (db : DB) : DB * Response := dispatch (view call) db.

(** The stores the calls of [Call] lead to, starting from the empty one. *)
Inductive reachable : DB → Prop :=
  | reachable_empty : reachable empty_db
  | reachable_serve call db : reachable db → reachable (serve call db).1.

(** The store after a list of calls, and the responses in order. *)
Fixpoint run (calls : list Call) (db : DB) : DB * list Response :=
  match calls with
  | [] => (db, [])
  | call :: calls =>
      let '(db', response) := serve call db in
      let '(db'', responses) := run calls db' in
      (db'', response :: responses)
  end.

(** No two rows of the mapping table link the same patient and doctor. *)
Definition no_duplicate_pair (db : DB) : Prop :=
  ∀ k1 k2 m1 m2,
    mappings db !! k1 = Some m1 → mappings db !! k2 = Some m2 →
    PatientDoctorMapping.patient m1 = PatientDoctorMapping.patient m2 →
    PatientDoctorMapping.doctor m1 = PatientDoctorMapping.doctor m2 →
    k1 = k2.

End Application.

(** ** A sample installation

    One concrete choice for what the views take from the framework and from
    the model declarations, to run the views on. *)
Module Sample.

Fixpoint digits (s : string) (acc : Z) : option Z :=
  match s with
  | EmptyString => Some acc
  | String c s =>
      let n := Z.of_nat (Ascii.nat_of_ascii c) in
      if (48 <=? n) && (n <=? 57) then digits s (10 * acc + (n - 48)) else None
  end.

Definition decimal (s : string) : option Z :=
  match s with
  | EmptyString => None
  | _ => digits s 0
  end.

Definition text (v : JVal) : string + string :=
  match v with
  | JStr s =>
      if bool_decide (s = ""%string) then inl "This field may not be blank."%string
      else inr s
  | _ => inl "Not a valid string."%string
  end.

(** The feminine ordinal indicator (U+00AA, in UTF-8), a letter whose
    compatibility normal form is the letter a. *)
Definition ordinal_a : string :=
  String (Ascii.ascii_of_nat 194) (String (Ascii.ascii_of_nat 170) EmptyString).

(** The normal form of the names the properties are run on: [ordinal_a]
    becomes a letter, a name of plain letters is its own normal form. *)
Definition nfkc (s : string) : string :=
  if bool_decide (s = ordinal_a) then "a"%string else s.

#[export] Instance django : Django := {|
  py_int := decimal;
  make_password := String.append "pbkdf2_sha256$";
  normalize_username := nfkc;
  normalize_email := λ s, s;
  username_field := text;
  email_field := text;
  password_field := text |}.

#[export] Instance models : Models := {|
  Patient_attrs := [ CharField "name" true false text ];
  Doctor_attrs := [ CharField "name" true false text;
                    CharField "specialization" false false text ] |}.

Definition request (user : Z) (body : list (string * JVal)) : Request :=
  mkRequest user (list_to_map body) ∅ 1700000000.

Definition request_with (user : Z) (query : list (string * string)) : Request :=
  mkRequest user ∅ (list_to_map query) 1700000000.

(** The scenario of section 8 of the specification: A and B register, each
    creates a patient, A lists patients, creates a doctor, maps its patient to
    the doctor twice, and B tries to delete the mapping. *)
Definition scenario : list Call :=
  [ Register (request 0 [("username", JStr "a"); ("email", JStr "a@x.org");
                         ("password", JStr "pw-a")]%string);
    Register (request 0 [("username", JStr "b"); ("email", JStr "b@x.org");
                         ("password", JStr "pw-b")]%string);
    CreatePatient (request 1 [("name", JStr "P1")]%string);
    CreatePatient (request 2 [("name", JStr "P2")]%string);
    ListPatients (request 1 []);
    CreateDoctor (request 1 [("name", JStr "D")]%string);
    CreateMapping (request 1 [("patient", JInt 1); ("doctor", JInt 1)]%string);
    CreateMapping (request 1 [("patient", JInt 1); ("doctor", JInt 1)]%string);
    DestroyMapping (request 2 []) 1 ].

(** The store after the first [n] calls of the scenario. *)
Definition after (n : nat) : DB := (run (take n scenario) empty_db).1.

(** The rows the scenario creates. *)
Definition patient_1 : Patient.t :=
  Patient.mk 1 {[ "name"%string := JStr "P1" ]} 1700000000 1700000000.

(** Requests the properties are run on. *)
Definition new_patient : Request :=
  request 1 [("name", JStr "X"); ("user", JInt 2)]%string.

Definition map_1_1 (user : Z) : Request :=
  request user [("patient", JInt 1); ("doctor", JInt 1)]%string.

Definition register_a : Request :=
  request 0 [("username", JStr "a"); ("email", JStr "a@x.org");
             ("password", JStr "pw-a")]%string.

Definition register_a_again : Request :=
  request 0 [("username", JStr "a"); ("email", JStr "other@x.org");
             ("password", JStr "pw")]%string.

Definition register_ordinal_a : Request :=
  request 0 [("username", JStr ordinal_a); ("email", JStr "o@x.org");
             ("password", JStr "pw-o")]%string.

Definition register_without_email : Request :=
  request 0 [("username", JStr "c"); ("password", JStr "pw-c")]%string.

Definition doctor_1 : Doctor.t :=
  Doctor.mk {[ "name"%string := JStr "D" ]} 1700000000 1700000000.

Definition mapping_1 : PatientDoctorMapping.t :=
  PatientDoctorMapping.mk 1 1 1700000000.

(** A sequel to the first seven calls of the scenario: A creates a second
    doctor and maps its patient to it. *)
Definition sequel : list Call :=
  [ CreateDoctor (request 1 [("name", JStr "E")]%string);
    CreateMapping (request 1 [("patient", JInt 1); ("doctor", JInt 2)]%string) ].

Definition two_mappings : DB := (run sequel (after 7)).1.

Definition mapping_2 : PatientDoctorMapping.t :=
  PatientDoctorMapping.mk 1 2 1700000000.

End Sample.

(** * Properties *)

(** ** The monad and the framework *)

Ltac unfold_M :=
  unfold mbind, M_bind, bind, mret, M_ret, unit_M, get, modify, raise, try_except in *.

Section FrameworkFacts.
Context `{Django}.

Lemma get_prep_value_store v db : (get_prep_value v db).1 = db.
Proof. destruct v as [[| |s]|]; simpl; try done. by destruct (py_int s). Qed.

Lemma get_prep_value_int z db : get_prep_value (Some (JInt z)) db = (db, inr (Some z)).
Proof. done. Qed.

(** A successful lookup leaves the store alone and returns a row of the
    table, under the key the submitted value stands for. *)
Lemma get_object_or_404_Some {A} (objects : DB → gmap Z A) id db db' k a :
  get_object_or_404 objects id db = (db', inr (k, a)) →
  db' = db ∧ get_prep_value id db = (db, inr (Some k)) ∧ objects db !! k = Some a.
Proof.
  unfold get_object_or_404. unfold_M.
  pose proof (get_prep_value_store id db) as Hs.
  destruct (get_prep_value id db) as [db1 [e|[z|]]]; simpl in *; subst; try done.
  destruct (objects db !! z) as [a'|] eqn:Hz; simpl; intros [= <- <- <-]; eauto.
Qed.

Lemma get_object_or_404_store {A} (objects : DB → gmap Z A) id db :
  (get_object_or_404 objects id db).1 = db.
Proof.
  unfold get_object_or_404. unfold_M.
  pose proof (get_prep_value_store id db) as Hs.
  destruct (get_prep_value id db) as [db1 [e|[z|]]]; simpl in *; subst; try done.
  by destruct (objects db !! z).
Qed.

(** An identifier no row of the table has is answered by [Http404]. *)
Lemma get_object_or_404_absent {A} (objects : DB → gmap Z A) id db k :
  get_prep_value id db = (db, inr k) → k ≫= (objects db !!.) = None →
  get_object_or_404 objects id db = (db, inl Http404).
Proof.
  unfold get_object_or_404. unfold_M. intros -> Hk.
  destruct k as [z|]; simpl in *; [|done]. by rewrite Hk.
Qed.

Lemma is_valid_store partial fields data db :
  (is_valid partial fields data db).1 = db.
Proof.
  unfold is_valid. destruct (to_internal_value _ _ _) as [errors validated].
  by case_decide.
Qed.

Lemma is_valid_inr partial fields data db db' validated :
  is_valid partial fields data db = (db', inr validated) →
  db' = db ∧ to_internal_value partial fields data = (∅, validated).
Proof.
  unfold is_valid. destruct (to_internal_value _ _ _) as [errors v].
  case_decide; [|done]. intros [= <- <-]. by subst.
Qed.

Lemma is_valid_inl partial fields data db db' e :
  is_valid partial fields data db = (db', inl e) →
  db' = db ∧ ∃ errors, e = ValidationError errors ∧ errors ≠ ∅.
Proof.
  unfold is_valid. destruct (to_internal_value _ _ _) as [errors v].
  case_decide; [done|]. intros [= <- <-]. eauto.
Qed.
End FrameworkFacts.

(** ** Patients *)

Section PatientFacts.
Context `{Django} `{Models}.

Lemma patient_get_queryset request db :
  PatientViewSet.get_queryset request db
  = (db, inr (filter (λ '(_, patient), Patient.user patient = request_user request)
                (patients db))).
Proof. done. Qed.

(** [get_object] of the patient views finds the rows of the caller and no
    other. *)
Lemma patient_get_object request pk db :
  get_object (PatientViewSet.get_queryset request) pk db
  = (db, match patients db !! pk with
         | Some patient =>
             if decide (Patient.user patient = request_user request)
             then inr (pk, patient) else inl Http404
         | None => inl Http404
         end).
Proof.
  unfold get_object. unfold_M. rewrite patient_get_queryset.
  destruct (patients db !! pk) as [p|] eqn:Hp.
  - case_decide as Hu.
    + by rewrite (map_lookup_filter_Some_2 _ _ _ _ Hp Hu).
    + rewrite (proj2 (map_lookup_filter_None _ _ _)); [done|].
      right. intros p' Hp'. by simplify_eq.
  - rewrite (proj2 (map_lookup_filter_None _ _ _)); [done|]. by left.
Qed.

Lemma patient_super_update_status request pk partial db db' response :
  PatientViewSet.super_update request pk partial db = (db', inr response) →
  status response = HTTP_200_OK.
Proof.
  unfold PatientViewSet.super_update. unfold_M. rewrite patient_get_object.
  destruct (patients db !! pk) as [p|]; [|done].
  case_decide; [|done].
  destruct (is_valid _ _ _ db) as [db1 [e|validated]]; [done|].
  simpl. by intros [= <- <-].
Qed.

Lemma patient_update_not_owner request pk partial db patient :
  patients db !! pk = Some patient →
  Patient.user patient ≠ request_user request →
  PatientViewSet.update request pk partial db = (db, inl Http404).
Proof.
  intros Hp Hu. unfold PatientViewSet.update. unfold_M.
  rewrite patient_get_object, Hp. by case_decide.
Qed.

Lemma patient_update_absent request pk partial db :
  patients db !! pk = None →
  PatientViewSet.update request pk partial db = (db, inl Http404).
Proof.
  intros Hp. unfold PatientViewSet.update. unfold_M.
  by rewrite patient_get_object, Hp.
Qed.

Lemma patient_update_owner request pk partial db patient :
  patients db !! pk = Some patient →
  Patient.user patient = request_user request →
  PatientViewSet.update request pk partial db
  = PatientViewSet.super_update request pk partial db.
Proof.
  intros Hp Hu. unfold PatientViewSet.update. unfold_M.
  rewrite patient_get_object, Hp. rewrite decide_True by done. simpl.
  by rewrite decide_False by (intros ?; done).
Qed.

Lemma patient_update_status request pk partial db db' response :
  PatientViewSet.update request pk partial db = (db', inr response) →
  status response = HTTP_200_OK.
Proof.
  destruct (patients db !! pk) as [p|] eqn:Hp.
  - destruct (decide (Patient.user p = request_user request)) as [Hu|Hu].
    + rewrite (patient_update_owner _ _ _ _ _ Hp Hu).
      apply patient_super_update_status.
    + by rewrite (patient_update_not_owner _ _ _ _ _ Hp Hu).
  - by rewrite (patient_update_absent _ _ _ _ Hp).
Qed.
End PatientFacts.

(** ** Mappings: the queryset, [get_object] and [destroy] *)

Section MappingFacts.
Context `{Django}.

Import PatientDoctorMappingViewSet.

(** The rows of the caller: mappings of a patient the caller owns. *)
Local Abbreviation owned request db mapping :=
  (patient__user db mapping = Some (request_user request)).

(** The three cases of the optional [patient_id] parameter. *)
Lemma mapping_get_queryset_plain request db :
  truthy (request_query_params request !! "patient_id") = false →
  get_queryset request db
  = (db, inr (filter (λ '(_, mapping), owned request db mapping) (mappings db))).
Proof. intros Ht. unfold get_queryset. unfold_M. by rewrite Ht. Qed.

Lemma mapping_get_queryset_filtered request db s z :
  request_query_params request !! "patient_id" = Some s → s ≠ ""%string →
  py_int s = Some z →
  get_queryset request db
  = (db, inr (filter (λ '(_, mapping),
                        Some (PatientDoctorMapping.patient mapping) = Some z
                        ∧ owned request db mapping) (mappings db))).
Proof.
  intros Hq Hs Hz. unfold get_queryset. unfold_M. rewrite Hq. simpl.
  rewrite bool_decide_eq_false_2 by done. simpl. by rewrite Hz.
Qed.

Lemma mapping_get_queryset_malformed request db s :
  request_query_params request !! "patient_id" = Some s → s ≠ ""%string →
  py_int s = None →
  get_queryset request db = (db, inl ValueError).
Proof.
  intros Hq Hs Hz. unfold get_queryset. unfold_M. rewrite Hq. simpl.
  rewrite bool_decide_eq_false_2 by done. simpl. by rewrite Hz.
Qed.

(** Whatever the parameter, the view reads the store only, raises nothing but
    [ValueError], and every row of its queryset is a row of the table that
    the caller owns. *)
Lemma mapping_get_queryset_inv request db db' r :
  get_queryset request db = (db', r) →
  db' = db ∧
  match r with
  | inr queryset =>
      ∀ pk mapping, queryset !! pk = Some mapping →
        mappings db !! pk = Some mapping ∧ owned request db mapping
  | inl e => e = ValueError
  end.
Proof.
  destruct (request_query_params request !! "patient_id") as [s|] eqn:Hq.
  - destruct (decide (s = ""%string)) as [->|Hs].
    + rewrite mapping_get_queryset_plain by (by rewrite Hq).
      intros [= <- <-]. split; [done|]. intros pk m Hm.
      by apply map_lookup_filter_Some in Hm.
    + destruct (py_int s) as [z|] eqn:Hz.
      * rewrite (mapping_get_queryset_filtered _ _ _ _ Hq Hs Hz).
        intros [= <- <-]. split; [done|]. intros pk m Hm.
        apply map_lookup_filter_Some in Hm as (? & _ & ?). done.
      * rewrite (mapping_get_queryset_malformed _ _ _ Hq Hs Hz).
        by intros [= <- <-].
  - rewrite mapping_get_queryset_plain by (by rewrite Hq).
    intros [= <- <-]. split; [done|]. intros pk m Hm.
    by apply map_lookup_filter_Some in Hm.
Qed.

Lemma mapping_get_object_inv request pk db db' r :
  get_object (get_queryset request) pk db = (db', r) →
  db' = db ∧
  match r with
  | inr instance =>
      instance.1 = pk ∧ mappings db !! pk = Some instance.2
      ∧ owned request db instance.2
  | inl e => e = ValueError ∨ e = Http404
  end.
Proof.
  unfold get_object. unfold_M.
  destruct (get_queryset request db) as [db1 r1] eqn:Hqs.
  apply mapping_get_queryset_inv in Hqs as [-> Hr1].
  destruct r1 as [e|qs].
  - intros [= <- <-]. auto.
  - destruct (qs !! pk) as [m|] eqn:Hm; intros [= <- <-].
    + split; [done|]. destruct (Hr1 _ _ Hm). auto.
    + auto.
Qed.

(** A mapping of somebody else's patient is not in the queryset, with or
    without the parameter. *)
Lemma mapping_get_object_not_owner request pk db mapping :
  mappings db !! pk = Some mapping → ¬ owned request db mapping →
  ∃ e, get_object (get_queryset request) pk db = (db, inl e)
       ∧ (e = ValueError ∨ e = Http404).
Proof.
  intros Hm Ho.
  destruct (get_object (get_queryset request) pk db) as [db' r] eqn:Hg.
  apply mapping_get_object_inv in Hg as [-> Hr]. destruct r as [e|inst].
  - eauto.
  - destruct Hr as (_ & Hm' & Ho'). by simplify_eq.
Qed.

Lemma mapping_get_object_plain request pk db :
  truthy (request_query_params request !! "patient_id") = false →
  get_object (get_queryset request) pk db
  = (db, match mappings db !! pk with
         | Some mapping =>
             if decide (owned request db mapping) then inr (pk, mapping)
             else inl Http404
         | None => inl Http404
         end).
Proof.
  intros Ht. unfold get_object. unfold_M.
  rewrite (mapping_get_queryset_plain _ _ Ht).
  destruct (mappings db !! pk) as [m|] eqn:Hm.
  - case_decide as Ho.
    + by rewrite (map_lookup_filter_Some_2 _ _ _ _ Hm Ho).
    + rewrite (proj2 (map_lookup_filter_None _ _ _)); [done|].
      right. intros m' Hm'. by simplify_eq.
  - rewrite (proj2 (map_lookup_filter_None _ _ _)); [done|]. by left.
Qed.

Lemma mapping_super_destroy_status request pk db db' response :
  super_destroy request pk db = (db', inr response) →
  status response = HTTP_204_NO_CONTENT.
Proof.
  unfold super_destroy. unfold_M.
  destruct (get_object (get_queryset request) pk db) as [db1 [e|inst]]; [done|].
  by intros [= <- <-].
Qed.

(** [destroy] gets past its ownership test whenever it gets to it. *)
Lemma mapping_destroy_unfold request pk db :
  destroy request pk db
  = match get_object (get_queryset request) pk db with
    | (db', inr _) => super_destroy request pk db'
    | (db', inl e) => (db', inl e)
    end.
Proof.
  unfold destroy. unfold_M.
  destruct (get_object (get_queryset request) pk db) as [db1 [e|inst]] eqn:Hg;
    [done|].
  apply mapping_get_object_inv in Hg as [-> (_ & _ & Ho)].
  by rewrite decide_False by (by intros []).
Qed.

Lemma mapping_destroy_status request pk db db' response :
  destroy request pk db = (db', inr response) →
  status response = HTTP_204_NO_CONTENT.
Proof.
  rewrite mapping_destroy_unfold.
  destruct (get_object (get_queryset request) pk db) as [db1 [e|inst]]; [done|].
  apply mapping_super_destroy_status.
Qed.

Lemma mapping_destroy_not_owner request pk db mapping :
  mappings db !! pk = Some mapping → ¬ owned request db mapping →
  ∃ e, destroy request pk db = (db, inl e) ∧ (e = ValueError ∨ e = Http404).
Proof.
  intros Hm Ho. rewrite mapping_destroy_unfold.
  destruct (mapping_get_object_not_owner _ _ _ _ Hm Ho) as (e & -> & He). eauto.
Qed.

Lemma mapping_destroy_owner request pk db mapping :
  truthy (request_query_params request !! "patient_id") = false →
  mappings db !! pk = Some mapping → owned request db mapping →
  destroy request pk db
  = (set_mappings (delete pk) db, inr (mkResponse NoBody HTTP_204_NO_CONTENT)).
Proof.
  intros Ht Hm Ho. rewrite mapping_destroy_unfold.
  rewrite (mapping_get_object_plain _ _ _ Ht), Hm, decide_True by done.
  unfold super_destroy. unfold_M.
  by rewrite (mapping_get_object_plain _ _ _ Ht), Hm, decide_True by done.
Qed.

(** [destroy] changes the store by deleting the row of the URL, or not at
    all. *)
Lemma mapping_destroy_store request pk db :
  (destroy request pk db).1 = db
  ∨ (destroy request pk db).1 = set_mappings (delete pk) db.
Proof.
  rewrite mapping_destroy_unfold.
  destruct (get_object (get_queryset request) pk db) as [db1 [e|inst]] eqn:Hg.
  - apply mapping_get_object_inv in Hg as [-> _]. by left.
  - apply mapping_get_object_inv in Hg as [-> _].
    unfold super_destroy. unfold_M.
    destruct (get_object (get_queryset request) pk db) as [db1 [e|inst']] eqn:Hg.
    + apply mapping_get_object_inv in Hg as [-> _]. by left.
    + apply mapping_get_object_inv in Hg as [-> (<- & _)]. by right.
Qed.
End MappingFacts.

(** ** Mappings: [create] *)

Section MappingCreateFacts.
Context `{Django}.

Import PatientDoctorMappingViewSet.

(** The rows of the mapping table that link a given patient and doctor. *)
Local Abbreviation linked db patient doctor :=
  (∃ pk mapping, mappings db !! pk = Some mapping
     ∧ PatientDoctorMapping.patient mapping = patient
     ∧ PatientDoctorMapping.doctor mapping = doctor).

Lemma mapping_exists_true patient_id doctor_id db patient doctor :
  get_prep_value patient_id db = (db, inr (Some patient)) →
  get_prep_value doctor_id db = (db, inr (Some doctor)) →
  linked db patient doctor →
  mapping_exists patient_id doctor_id db = (db, inr true).
Proof.
  intros Hp Hd (pk & m & Hm & Hmp & Hmd). unfold mapping_exists. unfold_M.
  rewrite Hp, Hd. do 2 f_equal. apply negb_true_iff, bool_decide_eq_false_2.
  intros Hempty. eapply (map_filter_empty_not_lookup _ _ pk m); eauto.
  simpl. by subst.
Qed.

Lemma mapping_exists_false patient_id doctor_id db patient doctor :
  get_prep_value patient_id db = (db, inr (Some patient)) →
  get_prep_value doctor_id db = (db, inr (Some doctor)) →
  ¬ linked db patient doctor →
  mapping_exists patient_id doctor_id db = (db, inr false).
Proof.
  intros Hp Hd Hno. unfold mapping_exists. unfold_M.
  rewrite Hp, Hd. do 2 f_equal. apply negb_false_iff, bool_decide_eq_true_2.
  apply map_empty. intros pk. apply map_lookup_filter_None. right.
  intros m Hm [[= Hmp] [= Hmd]]. apply Hno. eauto.
Qed.

(** First check: whatever the patient lookup raises is what the view
    raises. *)
Lemma mapping_create_patient_fails request db e :
  (get_object_or_404 patients (request_data request !! "patient") db).2 = inl e →
  create request db = (db, inl e).
Proof.
  intros He. unfold create. unfold_M.
  pose proof (get_object_or_404_store patients (request_data request !! "patient") db).
  destruct (get_object_or_404 patients _ db) as [db1 r]. simpl in *. by subst.
Qed.

(** Second check: a patient of somebody else is refused. *)
Lemma mapping_create_not_owner request db patient :
  (get_object_or_404 patients (request_data request !! "patient") db).2 = inr patient →
  Patient.user patient.2 ≠ request_user request →
  create request db
  = (db, inr (mkResponse
                (error_body "You do not have permission to assign this patient.")
                HTTP_403_FORBIDDEN)).
Proof.
  intros Hp Hu. unfold create. unfold_M.
  pose proof (get_object_or_404_store patients (request_data request !! "patient") db).
  destruct (get_object_or_404 patients _ db) as [db1 r]. simpl in *. subst.
  by rewrite decide_True.
Qed.

(** Third check: whatever the doctor lookup raises is what the view raises. *)
Lemma mapping_create_doctor_fails request db patient e :
  (get_object_or_404 patients (request_data request !! "patient") db).2 = inr patient →
  Patient.user patient.2 = request_user request →
  (get_object_or_404 doctors (request_data request !! "doctor") db).2 = inl e →
  create request db = (db, inl e).
Proof.
  intros Hp Hu Hd. unfold create. unfold_M.
  pose proof (get_object_or_404_store patients (request_data request !! "patient") db).
  destruct (get_object_or_404 patients _ db) as [db1 r]. simpl in *. subst.
  rewrite decide_False by (by intros ?).
  pose proof (get_object_or_404_store doctors (request_data request !! "doctor") db).
  destruct (get_object_or_404 doctors _ db) as [db1 r]. simpl in *. by subst.
Qed.

(** After the three lookups, the view is its duplicate test followed by the
    generic creation. *)
Lemma mapping_create_found request db patient doctor :
  (get_object_or_404 patients (request_data request !! "patient") db).2 = inr patient →
  Patient.user patient.2 = request_user request →
  (get_object_or_404 doctors (request_data request !! "doctor") db).2 = inr doctor →
  create request db
  = if bool_decide
         (filter (λ '(_, mapping),
                    Some (PatientDoctorMapping.patient mapping) = Some patient.1
                    ∧ Some (PatientDoctorMapping.doctor mapping) = Some doctor.1)
            (mappings db) = ∅)
    then super_create request db
    else (db, inr (mkResponse
                     (error_body "This patient is already assigned to this doctor.")
                     HTTP_400_BAD_REQUEST)).
Proof.
  intros Hp Hu Hd. unfold create. unfold_M.
  destruct (get_object_or_404 patients _ db) as [db1 r] eqn:Hgp.
  simpl in Hp. subst r. destruct patient as [k p].
  apply get_object_or_404_Some in Hgp as (-> & Hpk & _).
  rewrite decide_False by (by intros ?).
  destruct (get_object_or_404 doctors _ db) as [db1 r] eqn:Hgd.
  simpl in Hd. subst r. destruct doctor as [d doc].
  apply get_object_or_404_Some in Hgd as (-> & Hdk & _).
  unfold mapping_exists. unfold_M. rewrite Hpk, Hdk. simpl.
  by case_bool_decide.
Qed.

Lemma mapping_create_duplicate request db patient doctor :
  (get_object_or_404 patients (request_data request !! "patient") db).2 = inr patient →
  Patient.user patient.2 = request_user request →
  (get_object_or_404 doctors (request_data request !! "doctor") db).2 = inr doctor →
  linked db patient.1 doctor.1 →
  create request db
  = (db, inr (mkResponse
                (error_body "This patient is already assigned to this doctor.")
                HTTP_400_BAD_REQUEST)).
Proof.
  intros Hp Hu Hd (pk & m & Hm & Hmp & Hmd).
  rewrite (mapping_create_found _ _ _ _ Hp Hu Hd).
  rewrite bool_decide_eq_false_2; [done|].
  intros Hempty. eapply (map_filter_empty_not_lookup _ _ pk m); eauto.
  simpl. by rewrite Hmp, Hmd.
Qed.

Lemma mapping_create_fresh request db patient doctor :
  (get_object_or_404 patients (request_data request !! "patient") db).2 = inr patient →
  Patient.user patient.2 = request_user request →
  (get_object_or_404 doctors (request_data request !! "doctor") db).2 = inr doctor →
  ¬ linked db patient.1 doctor.1 →
  create request db = super_create request db.
Proof.
  intros Hp Hu Hd Hno.
  rewrite (mapping_create_found _ _ _ _ Hp Hu Hd).
  rewrite bool_decide_eq_true_2; [done|].
  apply map_empty. intros pk. apply map_lookup_filter_None. right.
  intros m Hm [[= Hmp] [= Hmd]]. apply Hno. eauto.
Qed.
End MappingCreateFacts.

Section MappingSuperCreate.
Context `{Django}.
Import PatientDoctorMappingViewSet.

Lemma mapping_fields_eq db :
  PatientDoctorMappingSerializer.fields db
  = [ AutoField "id";
      PrimaryKeyRelatedField "patient" (patients db);
      PrimaryKeyRelatedField "doctor" (doctors db);
      mkField "assigned_date" true false true (run_validation (DateTimeField "assigned_date")) ].
Proof. reflexivity. Qed.

Lemma related_field_valid {A} name (queryset : gmap Z A) v db k a :
  get_prep_value (Some v) db = (db, inr (Some k)) → queryset !! k = Some a →
  run_validation (PrimaryKeyRelatedField name queryset) v = inr (JInt k).
Proof.
  intros Hv Hk. destruct v as [|z|s]; simpl in *.
  - done.
  - injection Hv as ->. by rewrite Hk.
  - destruct (py_int s) as [z|]; [|done]. injection Hv as ->. by rewrite Hk.
Qed.

Lemma get_prep_value_Some v db k :
  get_prep_value v db = (db, inr (Some k)) → ∃ v', v = Some v'.
Proof. destruct v; [eauto|done]. Qed.

Lemma mapping_super_create_found request db patient doctor :
  (get_object_or_404 patients (request_data request !! "patient") db).2 = inr patient →
  (get_object_or_404 doctors (request_data request !! "doctor") db).2 = inr doctor →
  super_create request db
  = let pk := next_pk (mappings db) in
    let mapping := PatientDoctorMapping.mk patient.1 doctor.1 (request_now request) in
    let db' := set_mappings (insert pk mapping) db in
    (db', inr (mkResponse
                 (Object (PatientDoctorMappingSerializer.data db' (pk, mapping)))
                 HTTP_201_CREATED)).
Proof.
  intros Hp Hd.
  destruct (get_object_or_404 patients _ db) as [db1 r] eqn:Hgp.
  simpl in Hp. subst r. destruct patient as [k p].
  apply get_object_or_404_Some in Hgp as (-> & Hpk & Hpr).
  destruct (get_object_or_404 doctors _ db) as [db1 r] eqn:Hgd.
  simpl in Hd. subst r. destruct doctor as [d doc].
  apply get_object_or_404_Some in Hgd as (-> & Hdk & Hdr).
  destruct (get_prep_value_Some _ _ _ Hpk) as [vp Hvp].
  destruct (get_prep_value_Some _ _ _ Hdk) as [vd Hvd].
  rewrite Hvp in Hpk. rewrite Hvd in Hdk.
  unfold super_create, is_valid. unfold_M.
  rewrite mapping_fields_eq. simpl. rewrite Hvp, Hvd.
  pose proof (related_field_valid "patient" _ _ _ _ _ Hpk Hpr) as Ep.
  pose proof (related_field_valid "doctor" _ _ _ _ _ Hdk Hdr) as Ed.
  simpl in Ep, Ed. rewrite Ep, Ed. rewrite decide_True by done.
  unfold save, PatientDoctorMappingSerializer.create. unfold_M.
  rewrite (left_id_L ∅ (∪)).
  rewrite lookup_insert_eq, lookup_insert_ne, lookup_insert_eq by done.
  done.
Qed.
End MappingSuperCreate.

(** ** Registration *)

Section RegisterFacts.
Context `{Django}.

(** A user of that name is in the table. *)
Local Abbreviation taken db name :=
  (∃ pk user, users db !! pk = Some user ∧ User.username user = name).

Lemma taken_filter db s :
  filter (λ '(_, u), User.username u = s) (users db) = ∅ ↔ ¬ taken db s.
Proof.
  split.
  - intros He (pk & u & Hu & Hn).
    eapply (map_filter_empty_not_lookup _ _ pk u); eauto.
  - intros Hno. apply map_empty. intros pk.
    apply map_lookup_filter_None. right. intros u Hu Hn. apply Hno. eauto.
Qed.

Lemma UniqueValidator_inr db clean v s :
  UserSerializer.UniqueValidator db clean v = inr s ↔ clean v = inr s ∧ ¬ taken db s.
Proof.
  unfold UserSerializer.UniqueValidator. destruct (clean v) as [m|s'];
    [split; [done|by intros [? _]]|].
  case_bool_decide as He; split.
  - intros [= ->]. split; [done|]. intros (pk & u & Hu & Hn).
    eapply (map_filter_empty_not_lookup _ _ pk u); eauto.
  - by intros [[= ->] _].
  - done.
  - intros [[= ->] Hno]. destruct He. apply map_empty. intros pk.
    apply map_lookup_filter_None. right. intros u Hu Hn. apply Hno. eauto.
Qed.

Ltac user_cases request db :=
  unfold RegisterView.create, is_valid; unfold_M; simpl;
  destruct (request_data request !! "password") as [vp|] eqn:Hvp;
    [destruct (password_field vp) as [mp|p] eqn:Hp|];
  (destruct (request_data request !! "email") as [ve|] eqn:Hve;
    [destruct (email_field ve) as [me|e] eqn:He|]);
  (destruct (request_data request !! "username") as [vu|] eqn:Hvu;
    [destruct (UserSerializer.UniqueValidator db username_field vu) as [mu|u] eqn:Hu|]);
  simpl;
  (case_decide;
    [try (by match goal with E : <[_:=_]> _ = ∅ |- _ => apply insert_non_empty in E end)
    |try done]).

(** What a registration can do: create the user its three fields describe,
    or raise and leave the store alone. *)
Lemma register_inv request db db' r :
  RegisterView.create request db = (db', r) →
  match r with
  | inr response =>
      ∃ vu ve vp u e p,
        request_data request !! "username" = Some vu ∧ username_field vu = inr u
        ∧ (¬ taken db u ∧ u ≠ ""%string ∧ ¬ taken db (normalize_username u))
        ∧ request_data request !! "email" = Some ve ∧ email_field ve = inr e
        ∧ request_data request !! "password" = Some vp ∧ password_field vp = inr p
        ∧ let pk := next_pk (users db) in
          let user :=
            User.mk (normalize_username u) (normalize_email e) (make_password p)
              false in
          db' = set_users (insert pk user) db
          ∧ response = mkResponse (Object (UserSerializer.data db' (pk, user)))
                         HTTP_201_CREATED
  | inl exn =>
      db' = db
      ∧ ((∃ errors, exn = ValidationError errors ∧ errors ≠ ∅)
         ∨ (exn = KeyError "email" ∧ request_data request !! "email" = None)
         ∨ exn = ValueError
         ∨ exn = IntegrityError)
  end.
Proof.
  user_cases request db; try (intros [= <- <-]; split; [done|]; left; eauto; fail).
  all: unfold save, UserSerializer.create, UserSerializer.create_user, getitem;
    unfold_M; rewrite (left_id_L ∅ (∪)); simplify_map_eq; simpl.
  - case_bool_decide as Hblank; [intros [= <- <-]; auto|].
    case_bool_decide as Hfree; [|intros [= <- <-]; auto].
    intros [= <- <-]. apply UniqueValidator_inr in Hu as [Hu Hno].
    apply taken_filter in Hfree.
    exists vu, ve, vp, u, e, p. done.
  - intros [= <- <-]. split; [done|]. right. by left.
Qed.

Lemma UniqueValidator_taken db clean v s :
  clean v = inr s → taken db s →
  UserSerializer.UniqueValidator db clean v
  = inl "A user with that username already exists."%string.
Proof.
  intros Hv (pk & u & Hu & Hn). unfold UserSerializer.UniqueValidator.
  rewrite Hv. rewrite bool_decide_eq_false_2; [done|].
  intros He. eapply (map_filter_empty_not_lookup _ _ pk u); eauto.
Qed.

(** A name that is taken is refused by the validation, under the key of the
    field. *)
Lemma register_taken request db v1 name :
  request_data request !! "username" = Some v1 → username_field v1 = inr name →
  taken db name →
  ∃ errors, RegisterView.create request db = (db, inl (ValidationError errors))
            ∧ errors !! "username"
              = Some "A user with that username already exists."%string.
Proof.
  intros Hvu' Hclean Htaken.
  pose proof (UniqueValidator_taken _ _ _ _ Hclean Htaken) as Hval.
  user_cases request db; try congruence.
  all: eexists; (split; [reflexivity|]); simplify_map_eq; congruence.
Qed.

Lemma register_missing_username request db :
  request_data request !! "username" = None →
  ∃ errors, RegisterView.create request db = (db, inl (ValidationError errors))
            ∧ errors !! "username" = Some "This field is required."%string.
Proof.
  intros Hvu'.
  user_cases request db; try congruence.
  all: eexists; (split; [reflexivity|]); by simplify_map_eq.
Qed.

Lemma register_missing_password request db :
  request_data request !! "password" = None →
  ∃ errors, RegisterView.create request db = (db, inl (ValidationError errors))
            ∧ errors !! "password" = Some "This field is required."%string.
Proof.
  intros Hvp'.
  user_cases request db; try congruence.
  all: eexists; (split; [reflexivity|]); by simplify_map_eq.
Qed.

(** Without an [email] the validation passes, and [create] fails on
    [validated_data['email']]. *)
Lemma register_missing_email request db v1 name v3 pass :
  request_data request !! "username" = Some v1 → username_field v1 = inr name →
  ¬ taken db name →
  request_data request !! "password" = Some v3 → password_field v3 = inr pass →
  request_data request !! "email" = None →
  RegisterView.create request db = (db, inl (KeyError "email")).
Proof.
  intros Hvu' Hclean Hfree Hvp' Hp' Hve'.
  pose proof (proj2 (UniqueValidator_inr db _ _ _) (conj Hclean Hfree)) as Hval.
  user_cases request db; try congruence.
  unfold save, UserSerializer.create, getitem; unfold_M.
  rewrite (left_id_L ∅ (∪)). by simplify_map_eq.
Qed.

(** When the three fields pass validation, the outcome is the one of
    [create_user]. *)
Lemma register_validated request db v1 name v2 mail v3 pass :
  request_data request !! "username" = Some v1 → username_field v1 = inr name →
  ¬ taken db name →
  request_data request !! "email" = Some v2 → email_field v2 = inr mail →
  request_data request !! "password" = Some v3 → password_field v3 = inr pass →
  RegisterView.create request db
  = if bool_decide (name = ""%string) then (db, inl ValueError)
    else if bool_decide
              (filter (λ '(_, u), User.username u = normalize_username name)
                 (users db) = ∅)
    then
      let pk := next_pk (users db) in
      let user :=
        User.mk (normalize_username name) (normalize_email mail)
          (make_password pass) false in
      let db' := set_users (insert pk user) db in
      (db', inr (mkResponse (Object (UserSerializer.data db' (pk, user)))
                   HTTP_201_CREATED))
    else (db, inl IntegrityError).
Proof.
  intros Hvu' Hclean Hfree Hve' He' Hvp' Hp'.
  pose proof (proj2 (UniqueValidator_inr db _ _ _) (conj Hclean Hfree)) as Hval.
  user_cases request db; try congruence.
  unfold save, UserSerializer.create, UserSerializer.create_user, getitem; unfold_M.
  rewrite (left_id_L ∅ (∪)). simplify_map_eq.
  assert (u = name) as -> by congruence.
  assert (e = mail) as -> by congruence.
  assert (p = pass) as -> by congruence.
  by repeat case_bool_decide.
Qed.

(** The rendered user: the three readable fields of the serializer. *)
Lemma user_data_eq db instance :
  UserSerializer.data db instance
  = {[ "id" := JInt instance.1;
       "username" := JStr (User.username instance.2);
       "email" := JStr (User.email instance.2) ]}.
Proof.
  unfold UserSerializer.data, to_representation. simpl.
  apply map_eq. intros k. by simplify_map_eq.
Qed.
End RegisterFacts.

(** ** Serializers: read-only fields *)

Section ReadOnlyFacts.
Context `{Django}.

(** A submitted value is not looked at when every field of its name is
    read-only. *)
Lemma to_internal_value_read_only partial fields data key v :
  (∀ f, f ∈ fields → field_name f = key → read_only f = true) →
  to_internal_value partial fields (<[key:=v]> data)
  = to_internal_value partial fields data.
Proof.
  induction fields as [|f fields IH]; intros Hro; [done|].
  simpl. rewrite IH by (intros g Hg; apply Hro; by right).
  destruct (to_internal_value partial fields data) as [errors validated].
  destruct (read_only f) eqn:Hf; [done|].
  rewrite lookup_insert_ne; [done|].
  intros Hk. specialize (Hro f (list_elem_of_here _ _) (eq_sym Hk)). congruence.
Qed.

Lemma with_read_only_fields_spec names fields f :
  f ∈ with_read_only_fields names fields → field_name f ∈ names →
  read_only f = true.
Proof.
  unfold with_read_only_fields. intros Hf Hn.
  apply list_elem_of_fmap in Hf as (g & -> & _).
  case_bool_decide as Hg; [done|]. by destruct Hg.
Qed.

Lemma with_read_only_fields_name names fields :
  field_name <$> with_read_only_fields names fields = field_name <$> fields.
Proof.
  unfold with_read_only_fields. rewrite <- list_fmap_compose.
  apply list_fmap_ext. intros i f _. simpl. by case_bool_decide.
Qed.

(** The first readable field of a name is the one rendered. *)
Lemma to_representation_head f fields getattr :
  write_only f = false →
  to_representation (f :: fields) getattr !! field_name f
  = Some (getattr (field_name f)).
Proof.
  intros Hf. unfold to_representation. rewrite filter_cons, decide_True by done.
  simpl. by rewrite lookup_insert_eq.
Qed.

Lemma to_representation_tail f fields getattr key :
  field_name f ≠ key →
  to_representation (f :: fields) getattr !! key
  = to_representation fields getattr !! key.
Proof.
  intros Hf. unfold to_representation. rewrite filter_cons.
  case_decide; [|done]. simpl. by rewrite lookup_insert_ne.
Qed.
End ReadOnlyFacts.

(** ** Patients: [list] and [create] *)

Section PatientCreateFacts.
Context `{Django} `{Models}.

Lemma patient_fields_eq db :
  PatientSerializer.fields db
  = AutoField "id"
      :: mkField "user" true false true
           (run_validation (PrimaryKeyRelatedField "user" (users db)))
      :: with_read_only_fields PatientSerializer.read_only_fields
           (Patient_attrs ++ [ DateTimeField "created_at"; DateTimeField "updated_at" ]).
Proof. reflexivity. Qed.

Lemma patient_data_id db instance :
  PatientSerializer.data db instance !! "id" = Some (JInt instance.1).
Proof.
  unfold PatientSerializer.data. rewrite patient_fields_eq.
  by rewrite (to_representation_head (AutoField "id")).
Qed.

Lemma patient_data_user db instance :
  PatientSerializer.data db instance !! "user"
  = Some (JInt (Patient.user instance.2)).
Proof.
  unfold PatientSerializer.data. rewrite patient_fields_eq.
  rewrite to_representation_tail by done.
  by rewrite (to_representation_head (mkField "user" true false true _)).
Qed.

(** Every field called [user] of the patient serializer is read-only. *)
Lemma patient_user_read_only db f :
  f ∈ PatientSerializer.fields db → field_name f = "user"%string →
  read_only f = true.
Proof.
  intros Hf Hn. eapply with_read_only_fields_spec; [exact Hf|].
  rewrite Hn. apply list_elem_of_here.
Qed.

Lemma patient_list_eq request db :
  PatientViewSet.list request db
  = (db, inr (mkResponse
                (Array (PatientSerializer.data db
                          <$> map_to_list
                                (filter (λ '(_, patient),
                                           Patient.user patient = request_user request)
                                   (patients db))))
                HTTP_200_OK)).
Proof. done. Qed.

(** What creating a patient can do: add one row owned by the caller, under a
    new key, or raise a validation error and leave the store alone. *)
Lemma patient_create_inv request db db' r :
  PatientViewSet.create request db = (db', r) →
  match r with
  | inr response =>
      ∃ validated_data,
        let pk := next_pk (patients db) in
        let patient :=
          Patient.mk (request_user request) validated_data
            (request_now request) (request_now request) in
        db' = set_patients (insert pk patient) db
        ∧ response = mkResponse (Object (PatientSerializer.data db' (pk, patient)))
                       HTTP_201_CREATED
  | inl e => db' = db ∧ ∃ errors, e = ValidationError errors ∧ errors ≠ ∅
  end.
Proof.
  unfold PatientViewSet.create. unfold_M.
  destruct (is_valid false _ _ db) as [db1 [e|validated]] eqn:Hv.
  - apply is_valid_inl in Hv as [-> He]. by intros [= <- <-].
  - apply is_valid_inr in Hv as [-> _].
    unfold PatientViewSet.perform_create, save, PatientSerializer.create. unfold_M.
    rewrite lookup_union_l', lookup_singleton_eq by (by rewrite lookup_singleton_eq).
    intros [= <- <-]. eauto.
Qed.

Lemma next_pk_fresh {A} (table : gmap Z A) : table !! next_pk table = None.
Proof.
  apply not_elem_of_dom. unfold next_pk.
  pose proof (is_fresh ({[0]} ∪ dom table)). set_solver.
Qed.

(** The body of the request is read through the serializer only, which does
    not look at a submitted [user]. *)
Lemma patient_create_ignores_user request db v :
  PatientViewSet.create
    (mkRequest (request_user request) (<["user" := v]> (request_data request))
       (request_query_params request) (request_now request)) db
  = PatientViewSet.create request db.
Proof.
  unfold PatientViewSet.create, PatientViewSet.perform_create, is_valid. unfold_M.
  cbn [request_data request_user request_now].
  by rewrite to_internal_value_read_only by apply patient_user_read_only.
Qed.
End PatientCreateFacts.

(** ** What each view does to the store *)

Section StoreFacts.
Context `{Django} `{Models}.

Import PatientDoctorMappingViewSet.

Local Abbreviation linked db patient doctor :=
  (∃ pk mapping, mappings db !! pk = Some mapping
     ∧ PatientDoctorMapping.patient mapping = patient
     ∧ PatientDoctorMapping.doctor mapping = doctor).

(** [create] either leaves the store alone, answering with an exception or
    one of its two refusals, or went through its four checks and adds the
    mapping of the request. *)
Lemma mapping_create_inv request db db' r :
  create request db = (db', r) →
  (db' = db
   ∧ ∀ response, r = inr response →
       status response = HTTP_403_FORBIDDEN ∨ status response = HTTP_400_BAD_REQUEST)
  ∨ (∃ patient doctor,
       (get_object_or_404 patients (request_data request !! "patient") db).2
       = inr patient
       ∧ Patient.user patient.2 = request_user request
       ∧ (get_object_or_404 doctors (request_data request !! "doctor") db).2
         = inr doctor
       ∧ ¬ linked db patient.1 doctor.1
       ∧ db' = set_mappings
                 (insert (next_pk (mappings db))
                    (PatientDoctorMapping.mk patient.1 doctor.1 (request_now request)))
                 db
       ∧ ∃ body, r = inr (mkResponse body HTTP_201_CREATED)).
Proof.
  destruct (get_object_or_404 patients (request_data request !! "patient") db).2
    as [e|patient] eqn:Hp.
  { rewrite (mapping_create_patient_fails _ _ _ Hp). intros [= <- <-]. by left. }
  destruct (decide (Patient.user patient.2 = request_user request)) as [Hu|Hu]; last first.
  { rewrite (mapping_create_not_owner _ _ _ Hp Hu). intros [= <- <-]. left.
    split; [done|]. intros ? [= <-]. by left. }
  destruct (get_object_or_404 doctors (request_data request !! "doctor") db).2
    as [e|doctor] eqn:Hd.
  { rewrite (mapping_create_doctor_fails _ _ _ _ Hp Hu Hd). intros [= <- <-]. by left. }
  rewrite (mapping_create_found _ _ _ _ Hp Hu Hd). case_bool_decide as Hl.
  - rewrite (mapping_super_create_found _ _ _ _ Hp Hd). simpl.
    intros [= <- <-]. right. exists patient, doctor. repeat split; try done.
    + intros (pk & m & Hm & Hmp & Hmd).
      eapply (map_filter_empty_not_lookup _ _ pk m); eauto.
      simpl. by rewrite Hmp, Hmd.
    + eauto.
  - intros [= <- <-]. left. split; [done|]. intros ? [= <-]. by right.
Qed.

Lemma register_store request db :
  mappings (RegisterView.create request db).1 = mappings db.
Proof.
  destruct (RegisterView.create request db) as [db' r] eqn:Hr.
  apply register_inv in Hr. destruct r as [e|response].
  - by destruct Hr as [-> _].
  - by destruct Hr as (? & ? & ? & ? & ? & ? & _ & _ & _ & _ & _ & _ & _ & -> & _).
Qed.

Lemma patient_create_store request db :
  mappings (PatientViewSet.create request db).1 = mappings db.
Proof.
  destruct (PatientViewSet.create request db) as [db' r] eqn:Hr.
  apply patient_create_inv in Hr. destruct r as [e|response].
  - by destruct Hr as [-> _].
  - by destruct Hr as (? & -> & _).
Qed.

Lemma patient_super_update_store request pk partial db :
  mappings (PatientViewSet.super_update request pk partial db).1 = mappings db.
Proof.
  unfold PatientViewSet.super_update. unfold_M. rewrite patient_get_object.
  destruct (patients db !! pk) as [p|]; [|done].
  case_decide; [|done].
  destruct (is_valid partial (PatientSerializer.fields db) (request_data request) db)
    as [db1 [e|validated]] eqn:Hv.
  - by apply is_valid_inl in Hv as [-> _].
  - by apply is_valid_inr in Hv as [-> _].
Qed.

Lemma patient_update_store request pk partial db :
  mappings (PatientViewSet.update request pk partial db).1 = mappings db.
Proof.
  unfold PatientViewSet.update. unfold_M. rewrite patient_get_object.
  destruct (patients db !! pk) as [p|]; [|done].
  case_decide; [|done]. simpl. case_decide; [done|].
  apply patient_super_update_store.
Qed.

Lemma doctor_create_store request db :
  mappings (DoctorViewSet.create request db).1 = mappings db.
Proof.
  unfold DoctorViewSet.create. unfold_M.
  destruct (is_valid false DoctorSerializer.fields (request_data request) db)
    as [db1 [e|validated]] eqn:Hv.
  - by apply is_valid_inl in Hv as [-> _].
  - by apply is_valid_inr in Hv as [-> _].
Qed.

Lemma mapping_list_store request db : (list request db).1 = db.
Proof.
  unfold list. unfold_M.
  destruct (get_queryset request db) as [db1 [e|qs]] eqn:Hq;
    by apply mapping_get_queryset_inv in Hq as [-> _].
Qed.

(** The mapping table after a call other than the update of a mapping:
    untouched, one row less, or one row more under a new key, for a pair that
    was not linked. *)
Lemma serve_mappings call db :
  (∀ request pk partial, call ≠ UpdateMapping request pk partial) →
  mappings (serve call db).1 = mappings db
  ∨ (∃ pk, mappings (serve call db).1 = delete pk (mappings db))
  ∨ (∃ mapping,
       ¬ linked db (PatientDoctorMapping.patient mapping)
           (PatientDoctorMapping.doctor mapping)
       ∧ mappings (serve call db).1
         = <[next_pk (mappings db) := mapping]> (mappings db)).
Proof.
  intros Hcall. unfold serve, dispatch.
  destruct (view call db) as [db' r] eqn:Hv. simpl.
  assert (db' = (view call db).1) as Hdb by (by rewrite Hv).
  destruct call as [request|request|request|request pk partial|request
                   |request|request|request pk|request pk partial]; cbn [view] in *;
    [| | | | | | | |by destruct (Hcall request pk partial)].
  - left. rewrite Hdb. apply register_store.
  - left. by rewrite Hdb, patient_list_eq.
  - left. rewrite Hdb. apply patient_create_store.
  - left. rewrite Hdb. apply patient_update_store.
  - left. rewrite Hdb. apply doctor_create_store.
  - left. by rewrite Hdb, mapping_list_store.
  - apply mapping_create_inv in Hv as [[-> _]|(p & d & _ & _ & _ & Hl & -> & _)].
    + by left.
    + right. right. eexists. split; [|reflexivity]. done.
  - destruct (mapping_destroy_store request pk db) as [Hs|Hs];
      rewrite Hdb, Hs; [by left|]. right. left. by exists pk.
Qed.

(** Each call other than the update of a mapping keeps the pairs of the
    mapping table distinct. *)
Lemma serve_no_duplicate_pair call db :
  (∀ request pk partial, call ≠ UpdateMapping request pk partial) →
  no_duplicate_pair db → no_duplicate_pair (serve call db).1.
Proof.
  intros Hcall Hinv.
  destruct (serve_mappings call db Hcall) as [Hs|[[pk Hs]|(m & Hl & Hs)]];
    unfold no_duplicate_pair; rewrite Hs; intros k1 k2 m1 m2 H1 H2 Hp Hd.
  - by eapply Hinv.
  - apply lookup_delete_Some in H1 as [_ H1].
    apply lookup_delete_Some in H2 as [_ H2]. by eapply Hinv.
  - apply lookup_insert_Some in H1 as [[<- <-]|[Hn1 H1]];
      apply lookup_insert_Some in H2 as [[<- <-]|[Hn2 H2]].
    + done.
    + destruct Hl. exists k2, m2. by rewrite Hp, Hd.
    + destruct Hl. exists k1, m1. done.
    + by eapply Hinv.
Qed.

End StoreFacts.

(** ** The inherited update of a mapping *)

Section MappingUpdateFacts.
Context `{Django}.
Import PatientDoctorMappingViewSet.

(** A PUT or PATCH by the owner of the mapping, naming a patient and a doctor
    that exist, is accepted whatever the other rows of the table are. *)
Lemma mapping_update_found request pk partial db mapping p d patient doctor :
  truthy (request_query_params request !! "patient_id") = false →
  mappings db !! pk = Some mapping →
  patient__user db mapping = Some (request_user request) →
  request_data request !! "patient" = Some (JInt p) → patients db !! p = Some patient →
  request_data request !! "doctor" = Some (JInt d) → doctors db !! d = Some doctor →
  update request pk partial db
  = let mapping' :=
      PatientDoctorMapping.mk p d (PatientDoctorMapping.assigned_date mapping) in
    let db' := set_mappings (insert pk mapping') db in
    (db', inr (mkResponse
                 (Object (PatientDoctorMappingSerializer.data db' (pk, mapping')))
                 HTTP_200_OK)).
Proof.
  intros Ht Hm Ho Hp Hpr Hd Hdr.
  unfold update. unfold_M.
  rewrite (mapping_get_object_plain _ _ _ Ht), Hm.
  rewrite decide_True by done.
  unfold is_valid. unfold_M.
  rewrite mapping_fields_eq. simpl. rewrite Hp, Hd. simpl. rewrite Hpr, Hdr.
  rewrite decide_True by done.
  unfold PatientDoctorMappingSerializer.update. unfold_M.
  rewrite lookup_insert_eq, lookup_insert_ne, lookup_insert_eq by done.
  done.
Qed.
End MappingUpdateFacts.

(** * The claims *)

(** C5. A GET on the patient collection by a caller returns a patient if and
    only if the caller owns it: the queryset of the view holds exactly the
    rows of the patient table whose [user] is the caller, and the response
    lists the rendering of a row of the table exactly when its [user] is the
    caller (status 200, store untouched). *)
Theorem patient_list_scoped_to_owner `{Django} `{Models}
    (request : Request) (db : DB) (pk : Z) (patient : Patient.t) :
  patients db !! pk = Some patient →
  (∃ queryset,
     PatientViewSet.get_queryset request db = (db, inr queryset)
     ∧ (queryset !! pk = Some patient ↔ Patient.user patient = request_user request))
  ∧ (∃ rows,
       PatientViewSet.list request db = (db, inr (mkResponse (Array rows) HTTP_200_OK))
       ∧ (PatientSerializer.data db (pk, patient) ∈ rows
          ↔ Patient.user patient = request_user request)).
Proof.
  intros Hp. split.
  - eexists. split; [apply patient_get_queryset|].
    rewrite map_lookup_filter_Some. split; [by intros [_ ?]|by intros ?].
  - eexists. split; [apply patient_list_eq|].
    rewrite list_elem_of_fmap. split.
    + intros ([pk' p'] & Hd & Hin).
      apply elem_of_map_to_list, map_lookup_filter_Some in Hin as [Hp' Hu].
      assert (pk' = pk) as ->.
      { pose proof (patient_data_id db (pk, patient)) as Hid.
        rewrite Hd, patient_data_id in Hid. simpl in Hid. congruence. }
      by simplify_eq.
    + intros Hu. exists (pk, patient). split; [done|].
      by apply elem_of_map_to_list, map_lookup_filter_Some.
Qed.

Lemma patient__user_Some db mapping user :
  PatientDoctorMappingViewSet.patient__user db mapping = Some user
  ↔ ∃ patient,
      patients db !! PatientDoctorMapping.patient mapping = Some patient
      ∧ Patient.user patient = user.
Proof.
  unfold PatientDoctorMappingViewSet.patient__user. rewrite fmap_Some.
  split; intros (p & ? & ?); exists p; by auto.
Qed.

Lemma mapping_data_id `{Django} db instance :
  PatientDoctorMappingSerializer.data db instance !! "id" = Some (JInt instance.1).
Proof.
  unfold PatientDoctorMappingSerializer.data. rewrite mapping_fields_eq.
  by rewrite (to_representation_head (AutoField "id")).
Qed.

(** The rendering of a row of the table is among the renderings of a filtered
    table exactly when the row passes the filter. *)
Lemma mapping_rows_member `{Django} db (P : Z * PatientDoctorMapping.t → Prop)
    `{!∀ x, Decision (P x)} pk mapping :
  mappings db !! pk = Some mapping →
  PatientDoctorMappingSerializer.data db (pk, mapping)
    ∈ (PatientDoctorMappingSerializer.data db <$> map_to_list (filter P (mappings db)))
  ↔ P (pk, mapping).
Proof.
  intros Hm. rewrite list_elem_of_fmap. split.
  - intros ([pk' m'] & Hd & Hin).
    apply elem_of_map_to_list, map_lookup_filter_Some in Hin as [Hm' HP].
    assert (pk' = pk) as ->.
    { pose proof (mapping_data_id db (pk, mapping)) as Hid.
      rewrite Hd, mapping_data_id in Hid. simpl in Hid. congruence. }
    by simplify_eq.
  - intros HP. exists (pk, mapping). split; [done|].
    by apply elem_of_map_to_list, map_lookup_filter_Some.
Qed.

(** C6. Listing mappings, with or without the [patient_id] parameter.  A
    mapping is the caller's when the patient it refers to is in the patient
    table and the [user] of that patient is the caller.  Without the parameter
    (absent or empty) the queryset holds exactly the mappings of the table
    that are the caller's, and the response lists the rendering of a row of
    the table exactly when the row is the caller's; with a parameter
    [py_int] reads, the same holds cut down to the mappings of that patient;
    whatever the parameter, a row of the queryset is a mapping of the caller,
    so the identifier of somebody else's patient yields an empty list.  A
    parameter [py_int] cannot read gives no result at all: the view raises
    [ValueError]. *)
Theorem mapping_list_scoped_to_owner `{Django} (request : Request) (db : DB) :
  let patient_id := request_query_params request !! "patient_id" in
  let owned mapping :=
    ∃ patient,
      patients db !! PatientDoctorMapping.patient mapping = Some patient
      ∧ Patient.user patient = request_user request in
  (PatientDoctorMappingViewSet.truthy patient_id = false →
   ∃ queryset rows,
     PatientDoctorMappingViewSet.get_queryset request db = (db, inr queryset)
     ∧ PatientDoctorMappingViewSet.list request db
       = (db, inr (mkResponse (Array rows) HTTP_200_OK))
     ∧ ∀ pk mapping,
         (queryset !! pk = Some mapping
          ↔ mappings db !! pk = Some mapping ∧ owned mapping)
         ∧ (mappings db !! pk = Some mapping →
            (PatientDoctorMappingSerializer.data db (pk, mapping) ∈ rows
             ↔ owned mapping)))
  ∧ (∀ s z, patient_id = Some s → s ≠ ""%string → py_int s = Some z →
     ∃ queryset rows,
       PatientDoctorMappingViewSet.get_queryset request db = (db, inr queryset)
       ∧ PatientDoctorMappingViewSet.list request db
         = (db, inr (mkResponse (Array rows) HTTP_200_OK))
       ∧ ∀ pk mapping,
           (queryset !! pk = Some mapping
            ↔ mappings db !! pk = Some mapping ∧ owned mapping
              ∧ PatientDoctorMapping.patient mapping = z)
           ∧ (mappings db !! pk = Some mapping →
              (PatientDoctorMappingSerializer.data db (pk, mapping) ∈ rows
               ↔ owned mapping ∧ PatientDoctorMapping.patient mapping = z)))
  ∧ (∀ db' queryset,
       PatientDoctorMappingViewSet.get_queryset request db = (db', inr queryset) →
       db' = db
       ∧ (∀ pk mapping, queryset !! pk = Some mapping →
            mappings db !! pk = Some mapping ∧ owned mapping)
       ∧ PatientDoctorMappingViewSet.list request db
         = (db, inr (mkResponse
                       (Array (PatientDoctorMappingSerializer.data db
                                 <$> map_to_list queryset))
                       HTTP_200_OK)))
  ∧ (∀ s z other, patient_id = Some s → s ≠ ""%string → py_int s = Some z →
       patients db !! z = Some other → Patient.user other ≠ request_user request →
       PatientDoctorMappingViewSet.list request db
       = (db, inr (mkResponse (Array []) HTTP_200_OK)))
  ∧ (∀ s, patient_id = Some s → s ≠ ""%string → py_int s = None →
       PatientDoctorMappingViewSet.list request db = (db, inl ValueError)).
Proof.
  intros patient_id owned. split; [|split; [|split; [|split]]].
  - intros Ht. eexists _, _.
    split; [by apply mapping_get_queryset_plain|]. split.
    { unfold PatientDoctorMappingViewSet.list. unfold_M.
      by rewrite (mapping_get_queryset_plain _ _ Ht). }
    intros pk m. split.
    + rewrite map_lookup_filter_Some. simpl. by rewrite patient__user_Some.
    + intros Hm. rewrite (mapping_rows_member db _ pk m Hm). simpl.
      by rewrite patient__user_Some.
  - intros s z Hq Hs Hz. eexists _, _.
    split; [by eapply mapping_get_queryset_filtered|]. split.
    { unfold PatientDoctorMappingViewSet.list. unfold_M.
      by rewrite (mapping_get_queryset_filtered _ _ _ _ Hq Hs Hz). }
    intros pk m. split.
    + rewrite map_lookup_filter_Some. simpl. rewrite patient__user_Some.
      split; [intros (Hm & [= Hmz] & Ho)|intros (Hm & Ho & <-)]; auto.
    + intros Hm. rewrite (mapping_rows_member db _ pk m Hm). simpl.
      rewrite patient__user_Some.
      split; [intros ([= Hmz] & Ho)|intros (Ho & <-)]; auto.
  - intros db' queryset Hget. pose proof Hget as Hq.
    apply mapping_get_queryset_inv in Hq as [-> Hq].
    split; [done|]. split.
    { intros pk m Hm. destruct (Hq _ _ Hm) as [? Ho]. split; [done|].
      by apply patient__user_Some. }
    unfold PatientDoctorMappingViewSet.list. unfold_M. by rewrite Hget.
  - intros s z other Hq Hs Hz Ho Hu.
    unfold PatientDoctorMappingViewSet.list. unfold_M.
    rewrite (mapping_get_queryset_filtered _ _ _ _ Hq Hs Hz).
    do 4 f_equal. replace (filter _ (mappings db)) with (∅ : gmap Z PatientDoctorMapping.t);
      [by rewrite map_to_list_empty|].
    symmetry. apply map_empty. intros pk. apply map_lookup_filter_None. right.
    intros m Hm [[= Hmz] Hown].
    unfold PatientDoctorMappingViewSet.patient__user in Hown.
    rewrite Hmz, Ho in Hown. simpl in Hown. congruence.
  - intros s Hq Hs Hz. unfold PatientDoctorMappingViewSet.list. unfold_M.
    by rewrite (mapping_get_queryset_malformed _ _ _ Hq Hs Hz).
Qed.

(** C7. Creating a patient: the created row belongs to the caller whatever the
    body of the request says about [user].  Every field called [user] of the
    serializer is read-only; a successful creation adds exactly one row, under
    a key that was free, whose [user] is the caller, and renders that owner
    with status 201; and submitting a [user] of any value changes neither the
    store nor the outcome. *)
Theorem patient_create_owner_is_caller `{Django} `{Models}
    (request : Request) (db : DB) :
  (∀ f, f ∈ PatientSerializer.fields db → field_name f = "user"%string →
        read_only f = true)
  ∧ (∀ db' response,
       PatientViewSet.create request db = (db', inr response) →
       ∃ pk patient,
         patients db !! pk = None
         ∧ db' = set_patients (insert pk patient) db
         ∧ Patient.user patient = request_user request
         ∧ status response = HTTP_201_CREATED
         ∧ ∃ body, data response = Object body
                   ∧ body !! "user" = Some (JInt (request_user request)))
  ∧ (∀ v,
       PatientViewSet.create
         (mkRequest (request_user request) (<["user" := v]> (request_data request))
            (request_query_params request) (request_now request)) db
       = PatientViewSet.create request db).
Proof.
  split; [apply patient_user_read_only|]. split.
  - intros db' response Hc. apply patient_create_inv in Hc as (validated & -> & ->).
    eexists _, _. split; [apply next_pk_fresh|]. split; [done|].
    split; [done|]. split; [done|]. eexists. split; [done|].
    by rewrite patient_data_user.
  - apply patient_create_ignores_user.
Qed.

(** C8. Registration answers 201 with exactly the fields [id], [username] and
    [email], and no rendering of a user shows the password: the [password]
    field of the serializer is write-only, the rendering of any user has those
    three keys and does not depend on the stored password, and two accepted
    registrations that differ in the submitted password only get the same
    response. *)
Theorem register_response_hides_password `{Django} (request : Request) (db : DB) :
  (∀ db' response,
     RegisterView.create request db = (db', inr response) →
     status response = HTTP_201_CREATED
     ∧ ∃ body, data response = Object body
               ∧ dom body = {[ "id"; "username"; "email" ]}%string
               ∧ body !! "password" = None)
  ∧ (∀ f, f ∈ UserSerializer.fields db → field_name f = "password"%string →
          write_only f = true)
  ∧ (∀ instance,
       dom (UserSerializer.data db instance) = {[ "id"; "username"; "email" ]}%string)
  ∧ (∀ pk user password,
       UserSerializer.data db
         (pk, User.mk (User.username user) (User.email user) password
                (User.is_staff user))
       = UserSerializer.data db (pk, user))
  ∧ (∀ v db1 response1 db2 response2,
       RegisterView.create request db = (db1, inr response1) →
       RegisterView.create
         (mkRequest (request_user request) (<["password" := v]> (request_data request))
            (request_query_params request) (request_now request)) db
       = (db2, inr response2) →
       response2 = response1).
Proof.
  assert (∀ db0 instance,
            dom (UserSerializer.data db0 instance)
            = {[ "id"; "username"; "email" ]}%string) as Hdom.
  { intros db0 instance. rewrite user_data_eq.
    by rewrite !dom_insert_L, dom_singleton_L. }
  split; [|split; [|split; [apply Hdom|split]]].
  - intros db' response Hc.
    apply register_inv in Hc as (? & ? & ? & u & e & p & _ & _ & _ & _ & _ & _ & _ & -> & ->).
    split; [done|]. eexists. split; [done|]. split; [apply Hdom|].
    apply not_elem_of_dom. rewrite Hdom.
    rewrite !elem_of_union, !elem_of_singleton. by intros [[?|?]|?].
  - intros f Hf Hn. unfold UserSerializer.fields in Hf.
    repeat (apply elem_of_cons in Hf as [->|Hf]; [by simpl in Hn|]).
    by apply elem_of_nil in Hf.
  - intros pk user password. by rewrite !user_data_eq.
  - intros v db1 response1 db2 response2 H1 H2.
    apply register_inv in H1
      as (vu & ve & vp & u & e & p & Hvu & Hu & _ & Hve & He & _ & _ & -> & ->).
    apply register_inv in H2
      as (vu' & ve' & vp' & u' & e' & p' & Hvu' & Hu' & _ & Hve' & He' & _ & _ & -> & ->).
    simpl in Hvu', Hve'. rewrite lookup_insert_ne in Hvu', Hve' by done.
    assert (vu' = vu) as -> by congruence.
    assert (ve' = ve) as -> by congruence.
    assert (u' = u) as -> by congruence.
    assert (e' = e) as -> by congruence.
    by rewrite !user_data_eq.
Qed.

(** C9. Failures of registration.  After an accepted registration, a
    registration with the same [username] raises a validation error reported
    under [username] (a 400) when the name is in normal form, that is when
    [create_user] stored it as it was validated; a request without [username]
    or without [password] raises a validation error; whenever registration
    raises, the store is the one before, so no user is created.  Two cases
    do not raise a validation error, again without creating a user: a request
    without [email] whose other two fields are accepted fails with [KeyError]
    on [validated_data['email']], and the repetition of an accepted name that
    is not in normal form passes the uniqueness validator, which looks for the
    name as submitted, and fails on the unique column with [IntegrityError];
    both are server errors. *)
Theorem register_failures `{Django} (request : Request) (db : DB) :
  (∀ db' response request2 v name,
     RegisterView.create request db = (db', inr response) →
     request_data request !! "username" = Some v → username_field v = inr name →
     normalize_username name = name →
     request_data request2 !! "username" = Some v →
     ∃ errors,
       RegisterView.create request2 db' = (db', inl (ValidationError errors))
       ∧ is_Some (errors !! "username")
       ∧ dispatch (RegisterView.create request2) db'
         = (db', mkResponse (detail_body errors) HTTP_400_BAD_REQUEST))
  ∧ (request_data request !! "username" = None
     ∨ request_data request !! "password" = None →
     ∃ errors,
       RegisterView.create request db = (db, inl (ValidationError errors))
       ∧ dispatch (RegisterView.create request) db
         = (db, mkResponse (detail_body errors) HTTP_400_BAD_REQUEST))
  ∧ (∀ db' e, RegisterView.create request db = (db', inl e) → db' = db)
  ∧ (∀ v1 name v3 pass,
       request_data request !! "username" = Some v1 → username_field v1 = inr name →
       (∀ pk user, users db !! pk = Some user → User.username user ≠ name) →
       request_data request !! "password" = Some v3 → password_field v3 = inr pass →
       request_data request !! "email" = None →
       RegisterView.create request db = (db, inl (KeyError "email"))
       ∧ dispatch (RegisterView.create request) db
         = (db, mkResponse NoBody HTTP_500_INTERNAL_SERVER_ERROR))
  ∧ (∀ db' response request2 v name v2 mail v3 pass,
       RegisterView.create request db = (db', inr response) →
       request_data request !! "username" = Some v → username_field v = inr name →
       normalize_username name ≠ name →
       request_data request2 !! "username" = Some v →
       request_data request2 !! "email" = Some v2 → email_field v2 = inr mail →
       request_data request2 !! "password" = Some v3 → password_field v3 = inr pass →
       RegisterView.create request2 db' = (db', inl IntegrityError)
       ∧ dispatch (RegisterView.create request2) db'
         = (db', mkResponse NoBody HTTP_500_INTERNAL_SERVER_ERROR)).
Proof.
  split; [|split; [|split; [|split]]].
  - intros db' response request2 v name Hc Hv Hname Hnormal Hsame.
    apply register_inv in Hc
      as (vu & ve & vp & u & e & p & Hvu & Hu & _ & _ & _ & _ & _ & -> & _).
    assert (vu = v) as -> by congruence. assert (u = name) as -> by congruence.
    destruct (register_taken request2
                (set_users (insert (next_pk (users db))
                              (User.mk (normalize_username name) (normalize_email e)
                                 (make_password p) false)) db) v name)
      as (errors & Hr & He); try done.
    + eexists _, _. split; [apply lookup_insert_eq|done].
    + exists errors. rewrite He. unfold dispatch. by rewrite Hr.
  - intros [Hn|Hn].
    + destruct (register_missing_username _ db Hn) as (errors & Hr & _).
      exists errors. unfold dispatch. by rewrite Hr.
    + destruct (register_missing_password _ db Hn) as (errors & Hr & _).
      exists errors. unfold dispatch. by rewrite Hr.
  - intros db' e Hc. by apply register_inv in Hc as [-> _].
  - intros v1 name v3 pass Hv1 Hname Hfree Hv3 Hpass Hmail.
    assert (RegisterView.create request db = (db, inl (KeyError "email"))) as Hc.
    { eapply register_missing_email; eauto.
      intros (pk & user & Hu & Hn). by eapply Hfree. }
    split; [done|]. unfold dispatch. by rewrite Hc.
  - intros db' response request2 v name v2 mail v3 pass Hc Hv Hname Hnormal
      Hv' Hv2 Hmail Hv3 Hpass.
    apply register_inv in Hc
      as (vu & ve & vp & u & e & p & Hvu & Hu & (Hfree & Hblank & _) & _ & _ & _ & _ & -> & _).
    assert (vu = v) as -> by congruence. assert (u = name) as -> by congruence.
    set (user := User.mk (normalize_username name) (normalize_email e)
                   (make_password p) false).
    set (db1 := set_users (insert (next_pk (users db)) user) db).
    assert (RegisterView.create request2 db1 = (db1, inl IntegrityError)) as Hr.
    { rewrite (register_validated request2 db1 v name v2 mail v3 pass); try done.
      - rewrite bool_decide_eq_false_2 by done.
        rewrite bool_decide_eq_false_2; [done|].
        intros Hempty. apply taken_filter in Hempty. apply Hempty.
        exists (next_pk (users db)), user. split; [apply lookup_insert_eq|done].
      - intros (pk & other & Hother & Hn). simpl in Hother.
        apply lookup_insert_Some in Hother as [[_ <-]|[_ Hother]].
        + by simpl in Hn.
        + apply Hfree. eauto. }
    split; [done|]. unfold dispatch. by rewrite Hr.
Qed.

(** C1. [PatientDoctorMappingViewSet.create] runs its checks in this order:
    the patient is looked up (whatever the lookup raises is raised, [Http404]
    when no patient has the identifier), then the owner of the patient is
    compared with the caller (403), then the doctor is looked up (likewise),
    then an existing mapping of the pair is looked for (400); when the four
    checks pass the mapping is stored and the answer is 201; and in every
    other outcome the store is the one before. *)
Theorem mapping_create_checks_in_order `{Django} (request : Request) (db : DB) :
  let patient_id := request_data request !! "patient" in
  let doctor_id := request_data request !! "doctor" in
  let found_patient := (get_object_or_404 patients patient_id db).2 in
  let found_doctor := (get_object_or_404 doctors doctor_id db).2 in
  let linked patient doctor :=
    ∃ pk mapping, mappings db !! pk = Some mapping
      ∧ PatientDoctorMapping.patient mapping = patient
      ∧ PatientDoctorMapping.doctor mapping = doctor in
  let outcome := PatientDoctorMappingViewSet.create request db in
  (∀ k, get_prep_value patient_id db = (db, inr k) → k ≫= (patients db !!.) = None →
        found_patient = inl Http404)
  ∧ (∀ e, found_patient = inl e → outcome = (db, inl e))
  ∧ (∀ patient, found_patient = inr patient →
       Patient.user patient.2 ≠ request_user request →
       outcome = (db, inr (mkResponse
                             (error_body "You do not have permission to assign this patient.")
                             HTTP_403_FORBIDDEN)))
  ∧ (∀ patient, found_patient = inr patient →
       Patient.user patient.2 = request_user request →
       (∀ k, get_prep_value doctor_id db = (db, inr k) →
             k ≫= (doctors db !!.) = None → found_doctor = inl Http404)
       ∧ (∀ e, found_doctor = inl e → outcome = (db, inl e))
       ∧ (∀ doctor, found_doctor = inr doctor →
            (linked patient.1 doctor.1 →
             outcome = (db, inr (mkResponse
                                   (error_body "This patient is already assigned to this doctor.")
                                   HTTP_400_BAD_REQUEST)))
            ∧ (¬ linked patient.1 doctor.1 →
               outcome.1
               = set_mappings
                   (insert (next_pk (mappings db))
                      (PatientDoctorMapping.mk patient.1 doctor.1 (request_now request)))
                   db
               ∧ mappings db !! next_pk (mappings db) = None
               ∧ ∃ body, outcome.2 = inr (mkResponse body HTTP_201_CREATED))))
  ∧ (outcome.1 = db
     ∨ ∃ patient doctor,
         found_patient = inr patient
         ∧ Patient.user patient.2 = request_user request
         ∧ found_doctor = inr doctor
         ∧ ¬ linked patient.1 doctor.1
         ∧ outcome.1
           = set_mappings
               (insert (next_pk (mappings db))
                  (PatientDoctorMapping.mk patient.1 doctor.1 (request_now request)))
               db).
Proof.
  intros patient_id doctor_id found_patient found_doctor linked outcome.
  subst found_patient found_doctor outcome.
  split; [|split; [|split; [|split]]].
  - intros k Hk Hnone. by rewrite (get_object_or_404_absent _ _ _ _ Hk Hnone).
  - apply mapping_create_patient_fails.
  - apply mapping_create_not_owner.
  - intros patient Hp Hu. split; [|split].
    + intros k Hk Hnone. by rewrite (get_object_or_404_absent _ _ _ _ Hk Hnone).
    + intros e He. by apply (mapping_create_doctor_fails _ _ patient).
    + intros doctor Hd. split.
      * by apply mapping_create_duplicate.
      * intros Hfree.
        rewrite (mapping_create_fresh _ _ _ _ Hp Hu Hd Hfree).
        rewrite (mapping_super_create_found _ _ _ _ Hp Hd). simpl.
        split; [done|]. split; [apply next_pk_fresh|eauto].
  - destruct (PatientDoctorMappingViewSet.create request db) as [db' r] eqn:Hc.
    apply mapping_create_inv in Hc as [[-> _]|(p & d & ? & ? & ? & ? & -> & _)].
    + by left.
    + right. by exists p, d.
Qed.

Lemma get_prep_value_indep `{Django} v db db' :
  (get_prep_value v db).2 = (get_prep_value v db').2.
Proof. destruct v as [[| |s]|]; simpl; try done. by destruct (py_int s). Qed.

Lemma get_object_or_404_indep `{Django} {A} (objects : DB → gmap Z A) id db db' :
  objects db' = objects db →
  (get_object_or_404 objects id db').2 = (get_object_or_404 objects id db).2.
Proof.
  intros Ho. unfold get_object_or_404. unfold_M.
  pose proof (get_prep_value_indep id db db') as Hi.
  pose proof (get_prep_value_store id db) as Hs.
  pose proof (get_prep_value_store id db') as Hs'.
  destruct (get_prep_value id db) as [db1 r], (get_prep_value id db') as [db2 r'].
  simpl in *. subst. destruct r' as [e|[z|]]; simpl; try done.
  rewrite Ho. by destruct (objects db !! z).
Qed.

(** The request that was just accepted is refused when sent again. *)
Lemma mapping_create_twice `{Django} request db db' body :
  PatientDoctorMappingViewSet.create request db
  = (db', inr (mkResponse body HTTP_201_CREATED)) →
  PatientDoctorMappingViewSet.create request db'
  = (db', inr (mkResponse
                 (error_body "This patient is already assigned to this doctor.")
                 HTTP_400_BAD_REQUEST)).
Proof.
  intros Hc.
  apply mapping_create_inv in Hc as [[_ Hs]|(p & d & Hp & Hu & Hd & _ & -> & _)].
  { by destruct (Hs _ eq_refl). }
  apply (mapping_create_duplicate _ _ p d).
  - by rewrite (get_object_or_404_indep _ _ db).
  - done.
  - by rewrite (get_object_or_404_indep _ _ db).
  - eexists _, _. split; [apply lookup_insert_eq|done].
Qed.

(** C4. The duplicate check is made by [create] alone, so the mapping table
    does not keep its pairs distinct. Creating and deleting a mapping keep
    them distinct; a request to map a pair that is mapped already (by the
    owner of the patient, for a doctor that exists) is answered 400 with an
    error body and leaves the store as it was, and so is the repetition of a
    request that was just accepted. The PUT and PATCH the viewset inherits
    make no such check: when the owner of a mapping sends the patient and the
    doctor of another mapping, the answer is 200 and the two rows of the store
    then link the same patient and doctor. *)
Theorem mapping_update_duplicates_pair `{Django} `{Models} :
  (∀ request db,
     no_duplicate_pair db → no_duplicate_pair (serve (CreateMapping request) db).1)
  ∧ (∀ request pk db,
       no_duplicate_pair db → no_duplicate_pair (serve (DestroyMapping request pk) db).1)
  ∧ (∀ request db patient doctor pk mapping,
       (get_object_or_404 patients (request_data request !! "patient") db).2
       = inr patient →
       Patient.user patient.2 = request_user request →
       (get_object_or_404 doctors (request_data request !! "doctor") db).2
       = inr doctor →
       mappings db !! pk = Some mapping →
       PatientDoctorMapping.patient mapping = patient.1 →
       PatientDoctorMapping.doctor mapping = doctor.1 →
       serve (CreateMapping request) db
       = (db, mkResponse
                (error_body "This patient is already assigned to this doctor.")
                HTTP_400_BAD_REQUEST))
  ∧ (∀ request db db' body,
       serve (CreateMapping request) db = (db', mkResponse body HTTP_201_CREATED) →
       serve (CreateMapping request) db'
       = (db', mkResponse
                 (error_body "This patient is already assigned to this doctor.")
                 HTTP_400_BAD_REQUEST))
  ∧ (∀ request pk partial db mapping other_pk other patient doctor,
       request_query_params request !! "patient_id" = None →
       mappings db !! pk = Some mapping →
       PatientDoctorMappingViewSet.patient__user db mapping
       = Some (request_user request) →
       mappings db !! other_pk = Some other → other_pk ≠ pk →
       request_data request !! "patient"
       = Some (JInt (PatientDoctorMapping.patient other)) →
       request_data request !! "doctor"
       = Some (JInt (PatientDoctorMapping.doctor other)) →
       patients db !! PatientDoctorMapping.patient other = Some patient →
       doctors db !! PatientDoctorMapping.doctor other = Some doctor →
       let moved :=
         PatientDoctorMapping.mk (PatientDoctorMapping.patient other)
           (PatientDoctorMapping.doctor other)
           (PatientDoctorMapping.assigned_date mapping) in
       let db' := set_mappings (insert pk moved) db in
       serve (UpdateMapping request pk partial) db
       = (db', mkResponse
                 (Object (PatientDoctorMappingSerializer.data db' (pk, moved)))
                 HTTP_200_OK)
       ∧ mappings db' !! pk = Some moved
       ∧ mappings db' !! other_pk = Some other
       ∧ ¬ no_duplicate_pair (serve (UpdateMapping request pk partial) db).1).
Proof.
  split; [by intros; apply serve_no_duplicate_pair|].
  split; [by intros; apply serve_no_duplicate_pair|]. split; [|split].
  - intros request db patient doctor pk mapping Hp Hu Hd Hm Hmp Hmd.
    unfold serve, dispatch. cbn [view].
    rewrite (mapping_create_duplicate _ _ _ _ Hp Hu Hd); [done|]. eauto.
  - intros request db db' body. unfold serve, dispatch. cbn [view].
    destruct (PatientDoctorMappingViewSet.create request db) as [db1 r] eqn:Hc.
    intros [= -> Hr].
    apply mapping_create_inv in Hc as Hinv.
    destruct Hinv as [[_ Hs]|(p & d & _ & _ & _ & _ & _ & body' & ->)].
    + destruct r as [e|response]; simpl in Hr.
      * by destruct e.
      * destruct (Hs _ eq_refl) as [Hst|Hst]; by rewrite Hr in Hst.
    + simpl in Hr. by rewrite (mapping_create_twice _ _ _ _ Hc).
  - intros request pk partial db mapping other_pk other patient doctor
      Hq Hm Ho Hother Hne Hp Hd Hpr Hdr moved db'.
    assert (serve (UpdateMapping request pk partial) db
            = (db', mkResponse
                      (Object (PatientDoctorMappingSerializer.data db' (pk, moved)))
                      HTTP_200_OK)) as Hs.
    { unfold serve, dispatch. cbn [view].
      rewrite (mapping_update_found request pk partial db mapping
                 (PatientDoctorMapping.patient other)
                 (PatientDoctorMapping.doctor other) patient doctor); try done.
      by rewrite Hq. }
    assert (mappings db' !! pk = Some moved) as H1 by apply lookup_insert_eq.
    assert (mappings db' !! other_pk = Some other) as H2.
    { unfold db'. simpl. by rewrite lookup_insert_ne. }
    split; [done|]. split; [done|]. split; [done|].
    rewrite Hs. simpl. intros Hinv.
    by destruct Hne, (Hinv other_pk pk other moved H2 H1 eq_refl eq_refl).
Qed.

(** ** The ownership tests of [update] and [destroy] *)

Lemma exception_handler_not_forbidden e :
  status (exception_handler e) ≠ HTTP_403_FORBIDDEN.
Proof. by destruct e. Qed.

Lemma patient_update_not_forbidden `{Django} `{Models} request pk partial db :
  status (serve (UpdatePatient request pk partial) db).2 ≠ HTTP_403_FORBIDDEN.
Proof.
  unfold serve, dispatch. cbn [view].
  destruct (PatientViewSet.update request pk partial db) as [db' [e|response]] eqn:Hu.
  - apply exception_handler_not_forbidden.
  - apply patient_update_status in Hu. simpl. by rewrite Hu.
Qed.

Lemma mapping_destroy_not_forbidden `{Django} `{Models} request pk db :
  status (serve (DestroyMapping request pk) db).2 ≠ HTTP_403_FORBIDDEN.
Proof.
  unfold serve, dispatch. cbn [view].
  destruct (PatientDoctorMappingViewSet.destroy request pk db)
    as [db' [e|response]] eqn:Hd.
  - apply exception_handler_not_forbidden.
  - apply mapping_destroy_status in Hd. simpl. by rewrite Hd.
Qed.

(** When the queryset of the mapping views can be built, somebody else's
    mapping is not found in it. *)
Lemma mapping_destroy_not_owner_404 `{Django} request pk db queryset mapping :
  PatientDoctorMappingViewSet.get_queryset request db = (db, inr queryset) →
  mappings db !! pk = Some mapping →
  PatientDoctorMappingViewSet.patient__user db mapping ≠ Some (request_user request) →
  PatientDoctorMappingViewSet.destroy request pk db = (db, inl Http404).
Proof.
  intros Hq Hm Ho. rewrite mapping_destroy_unfold.
  unfold get_object. unfold_M. rewrite Hq.
  destruct (queryset !! pk) as [m|] eqn:Hqm; [|done].
  apply mapping_get_queryset_inv in Hq as [_ Hq].
  destruct (Hq _ _ Hqm) as [Hm' Ho']. by simplify_eq.
Qed.

(** C2. An update of a patient by a user who does not own it.  The claim
    asks for a 403; the view finds no such patient among those of the caller
    and raises [Http404] before its own ownership test: the response is 404,
    and the store, hence the patient, is unchanged. *)
Theorem patient_update_by_other_user `{Django} `{Models}
    (request : Request) (pk : Z) (partial : bool) (db : DB) (patient : Patient.t) :
  patients db !! pk = Some patient →
  Patient.user patient ≠ request_user request →
  PatientViewSet.update request pk partial db = (db, inl Http404)
  ∧ serve (UpdatePatient request pk partial) db
    = (db, mkResponse (Object {[ "detail" := JStr "Not found." ]}) HTTP_404_NOT_FOUND)
  ∧ patients (serve (UpdatePatient request pk partial) db).1 !! pk = Some patient.
Proof.
  intros Hp Hu.
  pose proof (patient_update_not_owner request pk partial db patient Hp Hu) as Hr.
  split; [done|]. unfold serve, dispatch. cbn [view]. by rewrite Hr.
Qed.

(** C3. Deleting a mapping.  For a caller who does not own the patient of the
    mapping the claim asks for a 403; the view does not find the mapping among
    those of the caller and raises before its own ownership test: the response
    is never 403, it is 404 whenever the queryset can be built (in particular
    without a [patient_id] parameter), and the mapping stays.  For the owner
    (without the parameter) the mapping is removed and the answer is 204. *)
Theorem mapping_destroy_by_other_user `{Django} `{Models}
    (request : Request) (pk : Z) (db : DB) (mapping : PatientDoctorMapping.t) :
  mappings db !! pk = Some mapping →
  (PatientDoctorMappingViewSet.patient__user db mapping ≠ Some (request_user request) →
   status (serve (DestroyMapping request pk) db).2 ≠ HTTP_403_FORBIDDEN
   ∧ (serve (DestroyMapping request pk) db).1 = db
   ∧ mappings (serve (DestroyMapping request pk) db).1 !! pk = Some mapping
   ∧ (PatientDoctorMappingViewSet.truthy (request_query_params request !! "patient_id")
      = false →
      serve (DestroyMapping request pk) db
      = (db, mkResponse (Object {[ "detail" := JStr "Not found." ]})
               HTTP_404_NOT_FOUND)))
  ∧ (PatientDoctorMappingViewSet.patient__user db mapping = Some (request_user request) →
     PatientDoctorMappingViewSet.truthy (request_query_params request !! "patient_id")
     = false →
     serve (DestroyMapping request pk) db
     = (set_mappings (delete pk) db, mkResponse NoBody HTTP_204_NO_CONTENT)
     ∧ mappings (serve (DestroyMapping request pk) db).1 !! pk = None).
Proof.
  intros Hm. split.
  - intros Ho. split; [apply mapping_destroy_not_forbidden|].
    destruct (mapping_destroy_not_owner request pk db mapping Hm Ho) as (e & Hd & He).
    assert ((serve (DestroyMapping request pk) db).1 = db) as Hs.
    { unfold serve, dispatch. cbn [view]. by rewrite Hd. }
    split; [done|]. split; [by rewrite Hs|].
    intros Ht. unfold serve, dispatch. cbn [view].
    by rewrite (mapping_destroy_not_owner_404 request pk db _ mapping
                  (mapping_get_queryset_plain request db Ht) Hm Ho).
  - intros Ho Ht. unfold serve, dispatch. cbn [view].
    rewrite (mapping_destroy_owner request pk db mapping Ht Hm Ho). simpl.
    split; [done|]. apply lookup_delete_eq.
Qed.

(** C10. The ownership tests of [PatientViewSet.update] and
    [PatientDoctorMappingViewSet.destroy] cannot fail.  [get_object] draws
    from the queryset of the caller, so the object it returns is owned by the
    caller; the two views never answer 403; and for an object of somebody
    else the views raise at the lookup, [Http404] for a patient and for a
    mapping whenever the queryset of the mapping views can be built. *)
Theorem ownership_check_unreachable `{Django} `{Models} (request : Request) (pk : Z) (db : DB) :
  (∀ db' instance,
     get_object (PatientViewSet.get_queryset request) pk db = (db', inr instance) →
     Patient.user instance.2 = request_user request)
  ∧ (∀ partial,
       status (serve (UpdatePatient request pk partial) db).2 ≠ HTTP_403_FORBIDDEN)
  ∧ (∀ partial patient,
       patients db !! pk = Some patient →
       Patient.user patient ≠ request_user request →
       PatientViewSet.update request pk partial db = (db, inl Http404))
  ∧ (∀ db' instance,
       get_object (PatientDoctorMappingViewSet.get_queryset request) pk db
       = (db', inr instance) →
       PatientDoctorMappingViewSet.patient__user db instance.2
       = Some (request_user request))
  ∧ status (serve (DestroyMapping request pk) db).2 ≠ HTTP_403_FORBIDDEN
  ∧ (∀ mapping,
       mappings db !! pk = Some mapping →
       PatientDoctorMappingViewSet.patient__user db mapping
       ≠ Some (request_user request) →
       (∃ e, PatientDoctorMappingViewSet.destroy request pk db = (db, inl e)
             ∧ (e = ValueError ∨ e = Http404))
       ∧ (∀ queryset,
            PatientDoctorMappingViewSet.get_queryset request db = (db, inr queryset) →
            PatientDoctorMappingViewSet.destroy request pk db = (db, inl Http404))).
Proof.
  split; [|split; [|split; [|split; [|split]]]].
  - intros db' instance. rewrite patient_get_object.
    destruct (patients db !! pk) as [p|]; [|done].
    case_decide; [|done]. by intros [= <- <-].
  - intros partial. apply patient_update_not_forbidden.
  - intros partial patient. apply patient_update_not_owner.
  - intros db' instance Hg. by apply mapping_get_object_inv in Hg as (_ & _ & _ & ?).
  - apply mapping_destroy_not_forbidden.
  - intros mapping Hm Ho. split; [by eapply mapping_destroy_not_owner|].
    intros queryset Hq. by eapply mapping_destroy_not_owner_404.
Qed.

(** * Further properties of the views and serializers *)

(** ** Users: the queryset of [UserViewSet] *)

Section UserViewSetFacts.
Context `{Django}.

Lemma user_get_queryset_lookup user db pk :
  ∃ queryset,
    UserViewSet.get_queryset user db = (db, inr queryset)
    ∧ queryset !! pk
      = if UserViewSet.is_staff db user then users db !! pk
        else if decide (user = Authenticated pk) then users db !! pk else None.
Proof.
  unfold UserViewSet.get_queryset. unfold_M.
  destruct (UserViewSet.is_staff db user); [by eexists|].
  eexists. split; [done|]. case_decide as Hu.
  - destruct (users db !! pk) as [row|] eqn:Hrow.
    + apply map_lookup_filter_Some. by subst.
    + apply map_lookup_filter_None. by left.
  - apply map_lookup_filter_None. right. intros row _ Hid.
    apply Hu. destruct user as [|pk']; simpl in Hid; congruence.
Qed.

Lemma user_get_object user db pk :
  get_object (UserViewSet.get_queryset user) pk db
  = (db, match (if UserViewSet.is_staff db user then users db !! pk
                else if decide (user = Authenticated pk) then users db !! pk
                     else None) with
         | Some row => inr (pk, row)
         | None => inl Http404
         end).
Proof.
  unfold get_object. unfold_M.
  destruct (user_get_queryset_lookup user db pk) as (queryset & -> & ->).
  by destruct (if UserViewSet.is_staff db user then _ else _).
Qed.
End UserViewSetFacts.

(** X1. [UserViewSet.get_queryset]: a caller who is not staff reaches their
    own record and no other, the anonymous caller reaches none, a staff caller
    reaches every record.  So for a caller who is not staff the list holds at
    most the rendering of their own record (none for the anonymous caller) and
    retrieving the record of another user raises [Http404], as retrieving an
    unknown one does. *)
Theorem user_queryset_scoped `{Django} (user : Caller) (db : DB) (pk : Z) :
  (∃ queryset,
     UserViewSet.get_queryset user db = (db, inr queryset)
     ∧ ∀ row, queryset !! pk = Some row
              ↔ users db !! pk = Some row
                ∧ (UserViewSet.is_staff db user = true ∨ user = Authenticated pk))
  ∧ UserViewSet.list AnonymousUser db = (db, inr (mkResponse (Array []) HTTP_200_OK))
  ∧ (UserViewSet.is_staff db user = false → user ≠ Authenticated pk →
     UserViewSet.retrieve user pk db = (db, inl Http404))
  ∧ (∀ row, users db !! pk = Some row →
       UserViewSet.is_staff db user = true ∨ user = Authenticated pk →
       UserViewSet.retrieve user pk db
       = (db, inr (mkResponse (Object (UserSerializer.data db (pk, row)))
                     HTTP_200_OK))).
Proof.
  split; [|split; [|split]].
  - destruct (user_get_queryset_lookup user db pk) as (queryset & Hq & Hl).
    exists queryset. split; [done|]. intros row. rewrite Hl.
    destruct (UserViewSet.is_staff db user).
    { split; [by auto|by intros [? _]]. }
    case_decide as Hu; split.
    + by auto.
    + by intros [? _].
    + done.
    + by intros [_ [?|?]].
  - unfold UserViewSet.list, UserViewSet.get_queryset. unfold_M. simpl.
    replace (filter _ (users db)) with (∅ : gmap Z User.t);
      [by rewrite map_to_list_empty|].
    symmetry. apply map_empty. intros k. apply map_lookup_filter_None.
    right. by intros row _ [=].
  - intros Hs Hu. unfold UserViewSet.retrieve. unfold_M.
    rewrite user_get_object, Hs. by rewrite decide_False.
  - intros row Hrow Hu. unfold UserViewSet.retrieve. unfold_M.
    rewrite user_get_object.
    destruct (UserViewSet.is_staff db user); [by rewrite Hrow|].
    destruct Hu as [|Hu]; [done|]. by rewrite decide_True, Hrow.
Qed.

(** X2. Retrieving one patient: the owner gets the rendering of the row, and
    a patient of somebody else is answered exactly like a key no patient has,
    by [Http404]; the store is not touched. *)
Theorem patient_retrieve_scoped `{Django} `{Models} (request : Request) (pk : Z) (db : DB) :
  (∀ patient, patients db !! pk = Some patient →
     Patient.user patient = request_user request →
     PatientViewSet.retrieve request pk db
     = (db, inr (mkResponse (Object (PatientSerializer.data db (pk, patient)))
                   HTTP_200_OK)))
  ∧ (∀ patient, patients db !! pk = Some patient →
       Patient.user patient ≠ request_user request →
       PatientViewSet.retrieve request pk db = (db, inl Http404))
  ∧ (patients db !! pk = None →
     PatientViewSet.retrieve request pk db = (db, inl Http404)).
Proof.
  unfold PatientViewSet.retrieve. unfold_M. rewrite patient_get_object.
  split; [|split].
  - intros patient -> Hu. by rewrite decide_True.
  - intros patient -> Hu. by rewrite decide_False.
  - by intros ->.
Qed.

(** ** What validation lets through *)

Section ValidationFacts.
Context `{Django}.

(** Validated data never holds a key whose fields are all read-only. *)
Lemma to_internal_value_read_only_key partial fields data key :
  (∀ f, f ∈ fields → field_name f = key → read_only f = true) →
  (to_internal_value partial fields data).2 !! key = None.
Proof.
  induction fields as [|f fields IH]; intros Hro; [done|].
  simpl. specialize (IH (λ g Hg, Hro g (list_elem_of_further _ _ _ Hg))).
  destruct (to_internal_value partial fields data) as [errors validated].
  destruct (read_only f) eqn:Hf; [done|].
  assert (field_name f ≠ key) as Hn.
  { intros Hk. specialize (Hro f (list_elem_of_here _ _) Hk). congruence. }
  destruct (data !! field_name f) as [v|].
  - destruct (run_validation f v); [done|]. simpl. by rewrite lookup_insert_ne.
  - by destruct (required f && negb partial).
Qed.

(** A required, writable field the body lacks is reported under its name. *)
Lemma to_internal_value_required partial fields data f :
  f ∈ fields → read_only f = false → required f = true → partial = false →
  data !! field_name f = None →
  is_Some ((to_internal_value partial fields data).1 !! field_name f).
Proof.
  intros Hf Hro Hreq -> Hd.
  induction fields as [|g fields IH]; [by apply elem_of_nil in Hf|].
  simpl. apply elem_of_cons in Hf as [<-|Hf].
  - destruct (to_internal_value false fields data) as [errors validated].
    rewrite Hro, Hd, Hreq. simpl. rewrite lookup_insert_eq. eauto.
  - specialize (IH Hf).
    destruct (to_internal_value false fields data) as [errors validated].
    destruct (read_only g); [done|].
    destruct (data !! field_name g) as [v|].
    + destruct (run_validation g v); [|done]. simpl.
      apply lookup_insert_is_Some'. by right.
    + destruct (required g); simpl; [|done].
      apply lookup_insert_is_Some'. by right.
Qed.

(** With [partial] set, an empty body passes and validates to nothing. *)
Lemma to_internal_value_partial_empty fields :
  to_internal_value true fields ∅ = (∅, ∅).
Proof.
  induction fields as [|f fields IH]; [done|].
  simpl. rewrite IH, lookup_empty, andb_false_r. by destruct (read_only f).
Qed.

Lemma with_read_only_fields_keep names fields f :
  f ∈ fields → field_name f ∉ names → f ∈ with_read_only_fields names fields.
Proof.
  intros Hf Hn. unfold with_read_only_fields. apply list_elem_of_fmap.
  exists f. split; [|done]. by rewrite bool_decide_eq_false_2.
Qed.
End ValidationFacts.

(** ** Patients: what [update] does *)

Section PatientUpdateFacts.
Context `{Django} `{Models}.

Lemma patient_read_only db key f :
  key ∈ PatientSerializer.read_only_fields →
  f ∈ PatientSerializer.fields db → field_name f = key → read_only f = true.
Proof.
  intros Hk Hf Hn. eapply with_read_only_fields_spec; [exact Hf|]. by rewrite Hn.
Qed.

(** What [super().update] can do: rewrite the attributes and the update time
    of the row of the URL, which the caller owns, or raise and leave the store
    alone. *)
Lemma patient_super_update_inv request pk partial db db' r :
  PatientViewSet.super_update request pk partial db = (db', r) →
  match r with
  | inr response =>
      ∃ patient validated_data,
        patients db !! pk = Some patient
        ∧ Patient.user patient = request_user request
        ∧ to_internal_value partial (PatientSerializer.fields db) (request_data request)
          = (∅, validated_data)
        ∧ let patient' :=
            Patient.mk (Patient.user patient)
              (validated_data ∪ Patient.attrs patient)
              (Patient.created_at patient) (request_now request) in
          db' = set_patients (insert pk patient') db
          ∧ response = mkResponse (Object (PatientSerializer.data db' (pk, patient')))
                         HTTP_200_OK
  | inl e =>
      db' = db
      ∧ (e = Http404 ∨ ∃ errors, e = ValidationError errors ∧ errors ≠ ∅)
  end.
Proof.
  unfold PatientViewSet.super_update. unfold_M. rewrite patient_get_object.
  destruct (patients db !! pk) as [p|] eqn:Hp; [|intros [= <- <-]; auto].
  case_decide as Hu; [|intros [= <- <-]; auto].
  destruct (is_valid partial (PatientSerializer.fields db) (request_data request) db)
    as [db1 [e|validated]] eqn:Hv.
  - apply is_valid_inl in Hv as [-> He]. intros [= <- <-]. auto.
  - apply is_valid_inr in Hv as [-> Hv].
    assert (validated !! "user" = None) as Hnone.
    { pose proof (to_internal_value_read_only_key partial
                    (PatientSerializer.fields db) (request_data request) "user"
                    (patient_user_read_only db)) as Hk.
      by rewrite Hv in Hk. }
    unfold PatientSerializer.update. unfold_M. simpl. rewrite Hnone.
    rewrite (delete_id _ _ Hnone).
    intros [= <- <-]. exists p, validated. done.
Qed.

Lemma patient_update_inv request pk partial db db' r :
  PatientViewSet.update request pk partial db = (db', r) →
  PatientViewSet.super_update request pk partial db = (db', r).
Proof.
  unfold PatientViewSet.update. unfold_M. rewrite patient_get_object.
  destruct (patients db !! pk) as [p|] eqn:Hp.
  - case_decide as Hu.
    + simpl. by rewrite decide_False by (by intros ?).
    + intros [= <- <-]. unfold PatientViewSet.super_update. unfold_M.
      rewrite patient_get_object, Hp. by rewrite decide_False.
  - intros [= <- <-]. unfold PatientViewSet.super_update. unfold_M.
    by rewrite patient_get_object, Hp.
Qed.
End PatientUpdateFacts.

(** X3. An update that goes through changes the row of the URL only: the row
    was the caller's, it keeps its owner and its creation time, its update
    time becomes the time of the request, and the answer is 200 with the
    rendering of the row.  An update that raises ([Http404], or a validation
    error) leaves the store as it was.  A [user], [created_at] or
    [updated_at] in the body changes nothing. *)
Theorem patient_update_by_owner `{Django} `{Models}
    (request : Request) (pk : Z) (partial : bool) (db : DB) :
  (∀ db' response,
     PatientViewSet.update request pk partial db = (db', inr response) →
     ∃ patient attrs,
       patients db !! pk = Some patient
       ∧ Patient.user patient = request_user request
       ∧ db' = set_patients
                 (insert pk (Patient.mk (Patient.user patient) attrs
                               (Patient.created_at patient) (request_now request)))
                 db
       ∧ status response = HTTP_200_OK
       ∧ ∃ body, data response = Object body
                 ∧ body !! "id" = Some (JInt pk)
                 ∧ body !! "user" = Some (JInt (Patient.user patient)))
  ∧ (∀ db' e,
       PatientViewSet.update request pk partial db = (db', inl e) →
       db' = db ∧ (e = Http404 ∨ ∃ errors, e = ValidationError errors ∧ errors ≠ ∅))
  ∧ (∀ key v, key ∈ PatientSerializer.read_only_fields →
       PatientViewSet.update
         (mkRequest (request_user request) (<[key := v]> (request_data request))
            (request_query_params request) (request_now request)) pk partial db
       = PatientViewSet.update request pk partial db).
Proof.
  split; [|split].
  - intros db' response Hu.
    apply patient_update_inv, patient_super_update_inv in Hu
      as (p & validated & Hp & Ho & _ & -> & ->).
    exists p, (validated ∪ Patient.attrs p). repeat (split; [done|]).
    eexists. split; [done|]. by rewrite patient_data_id, patient_data_user.
  - intros db' e Hu. by apply patient_update_inv, patient_super_update_inv in Hu.
  - intros key v Hk.
    assert (PatientViewSet.super_update
              (mkRequest (request_user request) (<[key := v]> (request_data request))
                 (request_query_params request) (request_now request)) pk partial db
            = PatientViewSet.super_update request pk partial db) as Hsuper.
    { unfold PatientViewSet.super_update, is_valid. unfold_M.
      rewrite !patient_get_object. cbn [request_data request_user request_now].
      destruct (patients db !! pk) as [p|]; [|done]. case_decide; [|done].
      by rewrite to_internal_value_read_only by (intros ?; by apply patient_read_only). }
    unfold PatientViewSet.update. unfold_M.
    rewrite !patient_get_object. cbn [request_user].
    destruct (patients db !! pk) as [p|]; [|done]. case_decide; [|done].
    simpl. by case_decide.
Qed.

(** X4. A PATCH with an empty body on one's own patient is accepted whatever
    the fields of the model require: the attributes stay and only the update
    time moves. *)
Theorem patient_patch_empty `{Django} `{Models}
    (request : Request) (pk : Z) (db : DB) (patient : Patient.t) :
  patients db !! pk = Some patient →
  Patient.user patient = request_user request →
  request_data request = ∅ →
  let patient' :=
    Patient.mk (Patient.user patient) (Patient.attrs patient)
      (Patient.created_at patient) (request_now request) in
  let db' := set_patients (insert pk patient') db in
  PatientViewSet.update request pk true db
  = (db', inr (mkResponse (Object (PatientSerializer.data db' (pk, patient')))
                 HTTP_200_OK)).
Proof.
  intros Hp Hu Hd. rewrite (patient_update_owner _ _ _ _ _ Hp Hu).
  unfold PatientViewSet.super_update, is_valid. unfold_M.
  rewrite patient_get_object, Hp, decide_True by done.
  rewrite Hd, to_internal_value_partial_empty. rewrite decide_True by done.
  unfold PatientSerializer.update. unfold_M. simpl.
  rewrite lookup_empty, delete_empty, (left_id_L ∅ (∪)). done.
Qed.

(** X5. A required attribute of the patient model that the body lacks: both
    creating a patient and a full update of one's own patient raise a
    validation error that names the field (a 400), and store nothing. *)
Theorem patient_required_attribute `{Django} `{Models}
    (request : Request) (db : DB) (f : Field) :
  f ∈ Patient_attrs → required f = true → read_only f = false →
  field_name f ∉ PatientSerializer.read_only_fields →
  request_data request !! field_name f = None →
  (∃ errors,
     PatientViewSet.create request db = (db, inl (ValidationError errors))
     ∧ is_Some (errors !! field_name f)
     ∧ dispatch (PatientViewSet.create request) db
       = (db, mkResponse (detail_body errors) HTTP_400_BAD_REQUEST))
  ∧ (∀ pk patient,
       patients db !! pk = Some patient →
       Patient.user patient = request_user request →
       ∃ errors,
         PatientViewSet.update request pk false db = (db, inl (ValidationError errors))
         ∧ is_Some (errors !! field_name f)).
Proof.
  intros Hf Hreq Hro Hn Hd.
  assert (f ∈ PatientSerializer.fields db) as Hin.
  { apply with_read_only_fields_keep; [|done].
    unfold PatientSerializer.model_fields. apply elem_of_app. right.
    apply elem_of_app. by left. }
  pose proof (to_internal_value_required false _ (request_data request) f
                Hin Hro Hreq eq_refl Hd) as Herr.
  destruct (to_internal_value false (PatientSerializer.fields db) (request_data request))
    as [errors validated] eqn:Hv.
  simpl in Herr.
  assert (errors ≠ ∅) as Hne.
  { intros ->. rewrite lookup_empty in Herr. by destruct Herr. }
  split.
  - exists errors.
    assert (PatientViewSet.create request db = (db, inl (ValidationError errors))) as Hc.
    { unfold PatientViewSet.create, is_valid. unfold_M. rewrite Hv.
      by rewrite decide_False. }
    split; [done|]. split; [done|]. unfold dispatch. by rewrite Hc.
  - intros pk patient Hp Hu. exists errors. split; [|done].
    rewrite (patient_update_owner _ _ _ _ _ Hp Hu).
    unfold PatientViewSet.super_update, is_valid. unfold_M.
    rewrite patient_get_object, Hp, decide_True by done.
    rewrite Hv. by rewrite decide_False.
Qed.

(** X6. The time stamps of a patient are the server's: a [created_at] or
    [updated_at] in the body of a creation changes nothing, and the row that
    is created carries the time of the request in both. *)
Theorem patient_create_timestamps `{Django} `{Models} (request : Request) (db : DB) :
  (∀ key v, key = "created_at"%string ∨ key = "updated_at"%string →
     PatientViewSet.create
       (mkRequest (request_user request) (<[key := v]> (request_data request))
          (request_query_params request) (request_now request)) db
     = PatientViewSet.create request db)
  ∧ (∀ db' response,
       PatientViewSet.create request db = (db', inr response) →
       ∃ pk patient,
         patients db' !! pk = Some patient
         ∧ patients db !! pk = None
         ∧ Patient.created_at patient = request_now request
         ∧ Patient.updated_at patient = request_now request).
Proof.
  split.
  - intros key v Hk.
    unfold PatientViewSet.create, PatientViewSet.perform_create, is_valid. unfold_M.
    cbn [request_data request_user request_now].
    rewrite to_internal_value_read_only; [done|].
    intros f. apply patient_read_only. unfold PatientSerializer.read_only_fields.
    destruct Hk as [-> | ->];
      repeat (first [apply list_elem_of_here|apply list_elem_of_further]).
  - intros db' response Hc. apply patient_create_inv in Hc as (validated & -> & _).
    eexists _, _. split; [apply lookup_insert_eq|]. split; [apply next_pk_fresh|done].
Qed.

Lemma patient_list_member `{Django} `{Models} request db pk patient :
  patients db !! pk = Some patient →
  Patient.user patient = request_user request →
  ∃ rows,
    PatientViewSet.list request db = (db, inr (mkResponse (Array rows) HTTP_200_OK))
    ∧ PatientSerializer.data db (pk, patient) ∈ rows.
Proof.
  intros Hp Hu. eexists. split; [apply patient_list_eq|].
  apply list_elem_of_fmap. exists (pk, patient). split; [done|].
  by apply elem_of_map_to_list, map_lookup_filter_Some.
Qed.

(** X7. Creating a patient, then reading: the new patient is in the list of
    its creator and can be retrieved by it under the key of the response,
    while the list of every other user is what it was before. *)
Theorem patient_create_then_list `{Django} `{Models}
    (request : Request) (db db' : DB) (response : Response) :
  PatientViewSet.create request db = (db', inr response) →
  ∃ pk patient,
    data response = Object (PatientSerializer.data db' (pk, patient))
    ∧ (∀ request', request_user request' = request_user request →
         (∃ rows,
            PatientViewSet.list request' db'
            = (db', inr (mkResponse (Array rows) HTTP_200_OK))
            ∧ PatientSerializer.data db' (pk, patient) ∈ rows)
         ∧ PatientViewSet.retrieve request' pk db' = (db', inr (mkResponse (data response) HTTP_200_OK)))
    ∧ (∀ request', request_user request' ≠ request_user request →
         (PatientViewSet.list request' db').2 = (PatientViewSet.list request' db).2).
Proof.
  intros Hc. apply patient_create_inv in Hc as (validated & -> & ->).
  eexists _, _. split; [done|]. split.
  - intros request' Hu. split.
    + apply patient_list_member; [apply lookup_insert_eq|done].
    + unfold PatientViewSet.retrieve. unfold_M.
      rewrite patient_get_object. simpl.
      by rewrite lookup_insert_eq, decide_True.
  - intros request' Hu. rewrite !patient_list_eq. simpl.
    rewrite map_filter_insert_not'; [done| |].
    + simpl. congruence.
    + intros p Hp. by rewrite next_pk_fresh in Hp.
Qed.

(** ** Doctors *)

Section DoctorFacts.
Context `{Django} `{Models}.

Lemma doctor_read_only key f :
  key ∈ DoctorSerializer.read_only_fields →
  f ∈ DoctorSerializer.fields → field_name f = key → read_only f = true.
Proof.
  intros Hk Hf Hn. eapply with_read_only_fields_spec; [exact Hf|]. by rewrite Hn.
Qed.

(** What creating a doctor can do: add one row under a new key, stamped with
    the time of the request, or raise a validation error and leave the store
    alone. *)
Lemma doctor_create_inv request db db' r :
  DoctorViewSet.create request db = (db', r) →
  match r with
  | inr response =>
      ∃ validated_data,
        let pk := next_pk (doctors db) in
        let doctor :=
          Doctor.mk validated_data (request_now request) (request_now request) in
        db' = set_doctors (insert pk doctor) db
        ∧ response = mkResponse (Object (DoctorSerializer.data (pk, doctor)))
                       HTTP_201_CREATED
  | inl e => db' = db ∧ ∃ errors, e = ValidationError errors ∧ errors ≠ ∅
  end.
Proof.
  unfold DoctorViewSet.create. unfold_M.
  destruct (is_valid false DoctorSerializer.fields (request_data request) db)
    as [db1 [e|validated]] eqn:Hv.
  - apply is_valid_inl in Hv as [-> He]. by intros [= <- <-].
  - apply is_valid_inr in Hv as [-> _].
    unfold DoctorViewSet.perform_create, save, DoctorSerializer.create. unfold_M.
    rewrite (left_id_L ∅ (∪)). intros [= <- <-]. eauto.
Qed.

Lemma doctor_list_eq request db :
  DoctorViewSet.list request db
  = (db, inr (mkResponse (Array (DoctorSerializer.data <$> map_to_list (doctors db)))
                HTTP_200_OK)).
Proof. done. Qed.
End DoctorFacts.

(** X8. Doctors belong to nobody.  Creating one adds a single row under a
    free key, stamped with the time of the request whatever [created_at] or
    [updated_at] the body carries, and answers 201; a creation that raises
    leaves the store as it was; and every caller's list shows every doctor,
    the one just created included. *)
Theorem doctor_create_and_list `{Django} `{Models} (request : Request) (db : DB) :
  (∀ db' response,
     DoctorViewSet.create request db = (db', inr response) →
     ∃ pk doctor,
       doctors db !! pk = None
       ∧ db' = set_doctors (insert pk doctor) db
       ∧ Doctor.created_at doctor = request_now request
       ∧ Doctor.updated_at doctor = request_now request
       ∧ response = mkResponse (Object (DoctorSerializer.data (pk, doctor)))
                      HTTP_201_CREATED
       ∧ ∀ request', ∃ rows,
           DoctorViewSet.list request' db'
           = (db', inr (mkResponse (Array rows) HTTP_200_OK))
           ∧ DoctorSerializer.data (pk, doctor) ∈ rows)
  ∧ (∀ db' e,
       DoctorViewSet.create request db = (db', inl e) →
       db' = db ∧ ∃ errors, e = ValidationError errors ∧ errors ≠ ∅)
  ∧ (∀ key v, key ∈ DoctorSerializer.read_only_fields →
       DoctorViewSet.create
         (mkRequest (request_user request) (<[key := v]> (request_data request))
            (request_query_params request) (request_now request)) db
       = DoctorViewSet.create request db)
  ∧ (∀ request' pk doctor, doctors db !! pk = Some doctor →
       ∃ rows,
         DoctorViewSet.list request' db = (db, inr (mkResponse (Array rows) HTTP_200_OK))
         ∧ DoctorSerializer.data (pk, doctor) ∈ rows).
Proof.
  assert (∀ db0 request' pk doctor, doctors db0 !! pk = Some doctor →
            ∃ rows,
              DoctorViewSet.list request' db0
              = (db0, inr (mkResponse (Array rows) HTTP_200_OK))
              ∧ DoctorSerializer.data (pk, doctor) ∈ rows) as Hlist.
  { intros db0 request' pk doctor Hd. eexists. split; [apply doctor_list_eq|].
    apply list_elem_of_fmap. exists (pk, doctor). split; [done|].
    by apply elem_of_map_to_list. }
  split; [|split; [|split]].
  - intros db' response Hc. apply doctor_create_inv in Hc as (validated & -> & ->).
    eexists _, _. split; [apply next_pk_fresh|]. repeat (split; [done|]).
    intros request'. apply Hlist. apply lookup_insert_eq.
  - intros db' e Hc. by apply doctor_create_inv in Hc.
  - intros key v Hk. unfold DoctorViewSet.create, is_valid. unfold_M.
    cbn [request_data request_user request_now].
    by rewrite to_internal_value_read_only by (intros ?; by apply doctor_read_only).
  - intros request'. apply Hlist.
Qed.

(** ** Mappings: missing identifiers, the [patient_id] parameter, sequences *)

(** X9. A body without [patient] (or with a null one) is answered by
    [Http404], not by a validation error, whatever else it holds; so is a body
    without [doctor] once the patient was found and is the caller's.  The
    store is not touched. *)
Theorem mapping_create_missing_ids `{Django} (request : Request) (db : DB) :
  (request_data request !! "patient" = None
   ∨ request_data request !! "patient" = Some JNull →
   PatientDoctorMappingViewSet.create request db = (db, inl Http404)
   ∧ dispatch (PatientDoctorMappingViewSet.create request) db
     = (db, mkResponse (Object {[ "detail" := JStr "Not found." ]}) HTTP_404_NOT_FOUND))
  ∧ (∀ patient,
       (get_object_or_404 patients (request_data request !! "patient") db).2
       = inr patient →
       Patient.user patient.2 = request_user request →
       request_data request !! "doctor" = None
       ∨ request_data request !! "doctor" = Some JNull →
       PatientDoctorMappingViewSet.create request db = (db, inl Http404)).
Proof.
  split.
  - intros Hp.
    assert (PatientDoctorMappingViewSet.create request db = (db, inl Http404)) as Hc.
    { apply mapping_create_patient_fails.
      rewrite (get_object_or_404_absent _ _ _ None); [done| |done].
      by destruct Hp as [-> | ->]. }
    split; [done|]. unfold dispatch. by rewrite Hc.
  - intros patient Hp Hu Hd.
    apply (mapping_create_doctor_fails _ _ patient); [done|done|].
    rewrite (get_object_or_404_absent _ _ _ None); [done| |done].
    by destruct Hd as [-> | ->].
Qed.

Lemma mapping_get_object_filtered `{Django} request pk db s z :
  request_query_params request !! "patient_id" = Some s → s ≠ ""%string →
  py_int s = Some z →
  get_object (PatientDoctorMappingViewSet.get_queryset request) pk db
  = (db, match mappings db !! pk with
         | Some mapping =>
             if decide (PatientDoctorMapping.patient mapping = z
                        ∧ PatientDoctorMappingViewSet.patient__user db mapping
                          = Some (request_user request))
             then inr (pk, mapping) else inl Http404
         | None => inl Http404
         end).
Proof.
  intros Hq Hs Hz. unfold get_object. unfold_M.
  rewrite (mapping_get_queryset_filtered _ _ _ _ Hq Hs Hz).
  destruct (mappings db !! pk) as [m|] eqn:Hm.
  - case_decide as Ho.
    + rewrite (map_lookup_filter_Some_2 _ _ _ _ Hm); [done|].
      destruct Ho as [-> ?]. done.
    + rewrite (proj2 (map_lookup_filter_None _ _ _)); [done|].
      right. intros m' Hm' [[= Hz'] Ho']. rewrite Hm in Hm'.
      injection Hm' as <-. by apply Ho.
  - rewrite (proj2 (map_lookup_filter_None _ _ _)); [done|]. by left.
Qed.

(** X10. [destroy] looks its mapping up in the queryset of the list, so a
    [patient_id] parameter counts on a DELETE too: with the identifier of
    another patient the owner's own mapping is not found ([Http404]) and
    stays, with the identifier of its patient it is removed (204), and with a
    parameter that is no number the view raises [ValueError] and the mapping
    stays. *)
Theorem mapping_destroy_patient_id_parameter `{Django}
    (request : Request) (pk : Z) (db : DB) (mapping : PatientDoctorMapping.t) (s : string) :
  mappings db !! pk = Some mapping →
  PatientDoctorMappingViewSet.patient__user db mapping = Some (request_user request) →
  request_query_params request !! "patient_id" = Some s → s ≠ ""%string →
  (∀ z, py_int s = Some z → z ≠ PatientDoctorMapping.patient mapping →
     PatientDoctorMappingViewSet.destroy request pk db = (db, inl Http404))
  ∧ (py_int s = Some (PatientDoctorMapping.patient mapping) →
     PatientDoctorMappingViewSet.destroy request pk db
     = (set_mappings (delete pk) db, inr (mkResponse NoBody HTTP_204_NO_CONTENT)))
  ∧ (py_int s = None →
     PatientDoctorMappingViewSet.destroy request pk db = (db, inl ValueError)).
Proof.
  intros Hm Ho Hq Hs. split; [|split].
  - intros z Hz Hne. rewrite mapping_destroy_unfold.
    rewrite (mapping_get_object_filtered _ _ _ _ _ Hq Hs Hz), Hm.
    rewrite decide_False; [done|]. by intros [? _].
  - intros Hz. rewrite mapping_destroy_unfold.
    rewrite (mapping_get_object_filtered _ _ _ _ _ Hq Hs Hz), Hm.
    rewrite decide_True by done.
    unfold PatientDoctorMappingViewSet.super_destroy. unfold_M.
    rewrite (mapping_get_object_filtered _ _ _ _ _ Hq Hs Hz), Hm.
    by rewrite decide_True.
  - intros Hz. rewrite mapping_destroy_unfold.
    unfold get_object. unfold_M.
    by rewrite (mapping_get_queryset_malformed _ _ _ Hq Hs Hz).
Qed.

(** X11. Deleting a mapping frees its pair: where no pair is linked twice,
    the request to map a linked pair is refused with 400, and the same request
    is accepted with 201 once the mapping of the pair is deleted. *)
Theorem mapping_destroy_then_create `{Django}
    (request : Request) (db : DB) (pk : Z) (mapping : PatientDoctorMapping.t)
    (patient : Z * Patient.t) (doctor : Z * Doctor.t) :
  no_duplicate_pair db →
  mappings db !! pk = Some mapping →
  (get_object_or_404 patients (request_data request !! "patient") db).2 = inr patient →
  Patient.user patient.2 = request_user request →
  (get_object_or_404 doctors (request_data request !! "doctor") db).2 = inr doctor →
  PatientDoctorMapping.patient mapping = patient.1 →
  PatientDoctorMapping.doctor mapping = doctor.1 →
  PatientDoctorMappingViewSet.create request db
  = (db, inr (mkResponse
                (error_body "This patient is already assigned to this doctor.")
                HTTP_400_BAD_REQUEST))
  ∧ ∃ body,
      PatientDoctorMappingViewSet.create request (set_mappings (delete pk) db)
      = (set_mappings
           (insert (next_pk (delete pk (mappings db)))
              (PatientDoctorMapping.mk patient.1 doctor.1 (request_now request)))
           (set_mappings (delete pk) db),
         inr (mkResponse body HTTP_201_CREATED)).
Proof.
  intros Hinv Hm Hp Hu Hd Hmp Hmd. split.
  - apply (mapping_create_duplicate _ _ patient doctor); eauto.
  - set (db1 := set_mappings (delete pk) db).
    assert ((get_object_or_404 patients (request_data request !! "patient") db1).2
            = inr patient) as Hp1 by (by rewrite (get_object_or_404_indep _ _ db)).
    assert ((get_object_or_404 doctors (request_data request !! "doctor") db1).2
            = inr doctor) as Hd1 by (by rewrite (get_object_or_404_indep _ _ db)).
    rewrite (mapping_create_fresh _ _ _ _ Hp1 Hu Hd1).
    + rewrite (mapping_super_create_found _ _ _ _ Hp1 Hd1). simpl. eauto.
    + intros (k & m & Hk & Hkp & Hkd). simpl in Hk.
      apply lookup_delete_Some in Hk as [Hne Hk].
      apply Hne. symmetry. eapply Hinv; eauto; congruence.
Qed.

Lemma get_object_or_404_found `{Django} {A} (objects : DB → gmap Z A) id db instance :
  (get_object_or_404 objects id db).2 = inr instance →
  objects db !! instance.1 = Some instance.2.
Proof.
  destruct (get_object_or_404 objects id db) as [db1 r] eqn:Hg. simpl.
  intros ->. destruct instance as [k a].
  by apply get_object_or_404_Some in Hg as (_ & _ & ?).
Qed.

(** The mappings another user can see do not change when a mapping of a
    patient that is not theirs is added under a new key. *)
Lemma mapping_get_queryset_other `{Django} request db pk mapping :
  mappings db !! pk = None →
  PatientDoctorMappingViewSet.patient__user db mapping ≠ Some (request_user request) →
  (PatientDoctorMappingViewSet.get_queryset request
     (set_mappings (insert pk mapping) db)).2
  = (PatientDoctorMappingViewSet.get_queryset request db).2.
Proof.
  intros Hfree Ho.
  destruct (request_query_params request !! "patient_id") as [s|] eqn:Hq.
  - destruct (decide (s = ""%string)) as [->|Hs].
    + rewrite !mapping_get_queryset_plain by (by rewrite Hq). simpl.
      f_equal. apply map_filter_insert_not'; [done|].
      intros m Hm. by rewrite Hfree in Hm.
    + destruct (py_int s) as [z|] eqn:Hz.
      * rewrite !(mapping_get_queryset_filtered _ _ _ _ Hq Hs Hz). simpl.
        f_equal. apply map_filter_insert_not'; [by intros [_ ?]|].
        intros m Hm. by rewrite Hfree in Hm.
      * by rewrite !(mapping_get_queryset_malformed _ _ _ Hq Hs Hz).
  - rewrite !mapping_get_queryset_plain by (by rewrite Hq). simpl.
    f_equal. apply map_filter_insert_not'; [done|].
    intros m Hm. by rewrite Hfree in Hm.
Qed.

(** X12. Creating a mapping, then reading: the mapping that was stored is
    stamped with the time of the request, it is in the list of the caller who
    created it (asked without [patient_id]), and the list of every other user
    is what it was before. *)
Theorem mapping_create_then_list `{Django}
    (request : Request) (db db' : DB) (body : Body) :
  PatientDoctorMappingViewSet.create request db
  = (db', inr (mkResponse body HTTP_201_CREATED)) →
  ∃ pk mapping,
    mappings db !! pk = None
    ∧ db' = set_mappings (insert pk mapping) db
    ∧ PatientDoctorMapping.assigned_date mapping = request_now request
    ∧ body = Object (PatientDoctorMappingSerializer.data db' (pk, mapping))
    ∧ (∀ request',
         request_user request' = request_user request →
         PatientDoctorMappingViewSet.truthy
           (request_query_params request' !! "patient_id") = false →
         ∃ rows,
           PatientDoctorMappingViewSet.list request' db'
           = (db', inr (mkResponse (Array rows) HTTP_200_OK))
           ∧ PatientDoctorMappingSerializer.data db' (pk, mapping) ∈ rows)
    ∧ (∀ request',
         request_user request' ≠ request_user request →
         (PatientDoctorMappingViewSet.list request' db').2
         = (PatientDoctorMappingViewSet.list request' db).2).
Proof.
  intros Hc. pose proof Hc as Hinv.
  apply mapping_create_inv in Hinv as [[_ Hs]|(p & d & Hp & Hu & Hd & Hfree & _)].
  { by destruct (Hs _ eq_refl). }
  rewrite (mapping_create_fresh _ _ _ _ Hp Hu Hd Hfree) in Hc.
  rewrite (mapping_super_create_found _ _ _ _ Hp Hd) in Hc. simpl in Hc.
  injection Hc as <- <-.
  pose proof (get_object_or_404_found _ _ _ _ Hp) as Hrow.
  set (pk := next_pk (mappings db)).
  set (mapping := PatientDoctorMapping.mk p.1 d.1 (request_now request)).
  assert (PatientDoctorMappingViewSet.patient__user db mapping
          = Some (request_user request)) as Hown.
  { unfold PatientDoctorMappingViewSet.patient__user. simpl.
    by rewrite Hrow, <- Hu. }
  exists pk, mapping. split; [apply next_pk_fresh|]. repeat (split; [done|]). split.
  - intros request' Hu' Ht. eexists.
    unfold PatientDoctorMappingViewSet.list. unfold_M.
    rewrite (mapping_get_queryset_plain _ _ Ht). split; [done|].
    apply list_elem_of_fmap. exists (pk, mapping). split; [done|].
    apply elem_of_map_to_list, map_lookup_filter_Some. split.
    + apply lookup_insert_eq.
    + simpl. by rewrite Hu'.
  - intros request' Hu'.
    pose proof (mapping_get_queryset_other request' db pk mapping
                  (next_pk_fresh _)) as Hq.
    rewrite Hown in Hq. specialize (Hq (λ E, Hu' (eq_sym (Some_inj _ _ E)))).
    unfold PatientDoctorMappingViewSet.list. unfold_M.
    destruct (PatientDoctorMappingViewSet.get_queryset request'
                (set_mappings (insert pk mapping) db)) as [db1 r1] eqn:H1.
    destruct (PatientDoctorMappingViewSet.get_queryset request' db) as [db2 r2] eqn:H2.
    apply mapping_get_queryset_inv in H1 as [-> _].
    apply mapping_get_queryset_inv in H2 as [-> _].
    simpl in Hq. subst r2. by destruct r1.
Qed.

Lemma mapping_assigned_date_read_only `{Django} db f :
  f ∈ PatientDoctorMappingSerializer.fields db →
  field_name f = "assigned_date"%string → read_only f = true.
Proof.
  intros Hf Hn. eapply with_read_only_fields_spec; [exact Hf|].
  rewrite Hn. apply list_elem_of_here.
Qed.

(** X13. The assignment date of a mapping is the server's: an
    [assigned_date] in the body of a creation changes neither the store nor
    the answer. *)
Theorem mapping_create_ignores_assigned_date `{Django}
    (request : Request) (db : DB) (v : JVal) :
  PatientDoctorMappingViewSet.create
    (mkRequest (request_user request) (<["assigned_date" := v]> (request_data request))
       (request_query_params request) (request_now request)) db
  = PatientDoctorMappingViewSet.create request db.
Proof.
  unfold PatientDoctorMappingViewSet.create. unfold_M.
  cbn [request_data request_user]. rewrite !lookup_insert_ne by done.
  destruct (get_object_or_404 patients (request_data request !! "patient") db)
    as [db1 [e|patient]]; [done|].
  case_decide; [done|].
  destruct (get_object_or_404 doctors (request_data request !! "doctor") db1)
    as [db2 [e|doctor]]; [done|].
  destruct (PatientDoctorMappingViewSet.mapping_exists _ _ db2)
    as [db3 [e|[|]]]; [done|done|].
  unfold PatientDoctorMappingViewSet.super_create, is_valid. unfold_M.
  cbn [request_data request_now].
  by rewrite to_internal_value_read_only
    by apply mapping_assigned_date_read_only.
Qed.

(** ** Registration followed by reads, and identifiers that are no numbers *)

(** X18. Registering, then reading users: the user a registration creates is
    stored under a key that was free, is not staff, can retrieve its own
    record, which renders as the registration answered, and is refused every
    other record with [Http404]. *)
Theorem register_then_retrieve `{Django}
    (request : Request) (db db' : DB) (response : Response) :
  RegisterView.create request db = (db', inr response) →
  ∃ pk user,
    users db !! pk = None
    ∧ db' = set_users (insert pk user) db
    ∧ User.is_staff user = false
    ∧ UserViewSet.retrieve (Authenticated pk) pk db'
      = (db', inr (mkResponse (data response) HTTP_200_OK))
    ∧ ∀ pk', pk' ≠ pk →
        UserViewSet.retrieve (Authenticated pk) pk' db' = (db', inl Http404).
Proof.
  intros Hr.
  apply register_inv in Hr as (? & ? & ? & u & e & p & _ & _ & _ & _ & _ & _ & _ & -> & ->).
  set (pk := next_pk (users db)).
  set (user := User.mk (normalize_username u) (normalize_email e)
                 (make_password p) false).
  assert (UserViewSet.is_staff (set_users (insert pk user) db) (Authenticated pk) = false)
    as Hs by (simpl; by rewrite lookup_insert_eq).
  exists pk, user. split; [apply next_pk_fresh|]. split; [done|]. split; [done|]. split.
  - unfold UserViewSet.retrieve. unfold_M. rewrite user_get_object, Hs.
    rewrite decide_True by done. simpl. by rewrite lookup_insert_eq.
  - intros pk' Hne. unfold UserViewSet.retrieve. unfold_M.
    rewrite user_get_object, Hs. rewrite decide_False; [done|]. congruence.
Qed.

(** X19. An identifier that is no number: when [patient] is a string that
    [py_int] cannot read, the lookup of the patient raises [ValueError], which
    no handler turns into a 404 or a 400: the answer is a server error, and
    the store is not touched.  The same holds for [doctor] once the patient
    was found and is the caller's. *)
Theorem mapping_create_malformed_id `{Django} (request : Request) (db : DB) (s : string) :
  py_int s = None →
  (request_data request !! "patient" = Some (JStr s) →
   PatientDoctorMappingViewSet.create request db = (db, inl ValueError)
   ∧ dispatch (PatientDoctorMappingViewSet.create request) db
     = (db, mkResponse NoBody HTTP_500_INTERNAL_SERVER_ERROR))
  ∧ (∀ patient,
       (get_object_or_404 patients (request_data request !! "patient") db).2
       = inr patient →
       Patient.user patient.2 = request_user request →
       request_data request !! "doctor" = Some (JStr s) →
       PatientDoctorMappingViewSet.create request db = (db, inl ValueError)).
Proof.
  intros Hs.
  assert (∀ {A} (objects : DB → gmap Z A),
            (get_object_or_404 objects (Some (JStr s)) db).2 = inl ValueError) as Hbad.
  { intros A objects. unfold get_object_or_404. unfold_M. simpl. by rewrite Hs. }
  split.
  - intros Hp.
    assert (PatientDoctorMappingViewSet.create request db = (db, inl ValueError)) as Hc.
    { apply mapping_create_patient_fails. by rewrite Hp. }
    split; [done|]. unfold dispatch. by rewrite Hc.
  - intros patient Hp Hu Hd.
    apply (mapping_create_doctor_fails _ _ patient); [done|done|]. by rewrite Hd.
Qed.
(** * The claims on the sample installation *)

Import Sample.

Lemma patient_list_scoped_to_owner_witness :
  patients (after 6) !! 1 = Some patient_1
  ∧ ∃ rows,
      PatientViewSet.list (request 1 []) (after 6)
      = (after 6, inr (mkResponse (Array rows) HTTP_200_OK))
      ∧ (PatientSerializer.data (after 6) (1, patient_1) ∈ rows
         ↔ Patient.user patient_1 = request_user (request 1 [])).
Proof.
  assert (patients (after 6) !! 1 = Some patient_1) as Hp
    by (vm_compute; reflexivity).
  split; [exact Hp|].
  exact (proj2 (patient_list_scoped_to_owner (request 1 []) (after 6) 1 patient_1 Hp)).
Defined.

Lemma reachable_run `{Django} `{Models} calls db :
  reachable db → reachable (run calls db).1.
Proof.
  revert db. induction calls as [|call calls IH]; intros db Hr; [done|].
  simpl. pose proof (reachable_serve call db Hr) as Hs.
  destruct (serve call db) as [db' response]. simpl in Hs.
  specialize (IH db' Hs). by destruct (run calls db').
Qed.

Lemma mapping_list_scoped_to_owner_witness :
  mappings (after 7) !! 1 = Some mapping_1
  ∧ (∃ queryset rows,
       PatientDoctorMappingViewSet.get_queryset (request 1 []) (after 7)
       = (after 7, inr queryset)
       ∧ PatientDoctorMappingViewSet.list (request 1 []) (after 7)
         = (after 7, inr (mkResponse (Array rows) HTTP_200_OK))
       ∧ queryset !! 1 = Some mapping_1
       ∧ PatientDoctorMappingSerializer.data (after 7) (1, mapping_1) ∈ rows)
  ∧ (∃ queryset rows,
       PatientDoctorMappingViewSet.get_queryset
         (request_with 1 [("patient_id", "1")]%string) (after 7)
       = (after 7, inr queryset)
       ∧ PatientDoctorMappingViewSet.list
           (request_with 1 [("patient_id", "1")]%string) (after 7)
         = (after 7, inr (mkResponse (Array rows) HTTP_200_OK))
       ∧ queryset !! 1 = Some mapping_1
       ∧ PatientDoctorMappingSerializer.data (after 7) (1, mapping_1) ∈ rows)
  ∧ PatientDoctorMappingViewSet.list
      (request_with 2 [("patient_id", "1")]%string) (after 7)
    = (after 7, inr (mkResponse (Array []) HTTP_200_OK)).
Proof.
  assert (mappings (after 7) !! 1 = Some mapping_1) as Hm by (vm_compute; reflexivity).
  assert (patients (after 7) !! PatientDoctorMapping.patient mapping_1 = Some patient_1)
    as Hp by (vm_compute; reflexivity).
  split; [exact Hm|]. split; [|split].
  - destruct (proj1 (mapping_list_scoped_to_owner (request 1 []) (after 7)) eq_refl)
      as (queryset & rows & Hq & Hl & Hall).
    exists queryset, rows. split; [exact Hq|]. split; [exact Hl|].
    destruct (Hall 1 mapping_1) as [Hin Hrow]. split.
    + apply Hin. split; [exact Hm|]. exists patient_1. split; [exact Hp|reflexivity].
    + apply (Hrow Hm). exists patient_1. split; [exact Hp|reflexivity].
  - destruct (proj1 (proj2 (mapping_list_scoped_to_owner
                              (request_with 1 [("patient_id", "1")]%string) (after 7)))
                "1"%string 1 ltac:(vm_compute; reflexivity) ltac:(discriminate)
                eq_refl)
      as (queryset & rows & Hq & Hl & Hall).
    exists queryset, rows. split; [exact Hq|]. split; [exact Hl|].
    destruct (Hall 1 mapping_1) as [Hin Hrow]. split.
    + apply Hin. split; [exact Hm|]. split; [|reflexivity].
      exists patient_1. split; [exact Hp|reflexivity].
    + apply (Hrow Hm). split; [|reflexivity].
      exists patient_1. split; [exact Hp|reflexivity].
  - apply (proj1 (proj2 (proj2 (proj2 (mapping_list_scoped_to_owner
                           (request_with 2 [("patient_id", "1")]%string) (after 7)))))
             "1"%string 1 patient_1);
      [vm_compute; reflexivity|discriminate|reflexivity|vm_compute; reflexivity
      |vm_compute; discriminate].
Defined.

Lemma patient_create_owner_is_caller_witness :
  PatientViewSet.create new_patient (after 6)
  = ((serve (CreatePatient new_patient) (after 6)).1,
     inr (serve (CreatePatient new_patient) (after 6)).2)
  ∧ ∃ pk patient,
      patients (after 6) !! pk = None
      ∧ (serve (CreatePatient new_patient) (after 6)).1
        = set_patients (insert pk patient) (after 6)
      ∧ Patient.user patient = 1.
Proof.
  assert (PatientViewSet.create new_patient (after 6)
          = ((serve (CreatePatient new_patient) (after 6)).1,
             inr (serve (CreatePatient new_patient) (after 6)).2)) as Hc
    by (vm_compute; reflexivity).
  split; [exact Hc|].
  destruct (proj1 (proj2 (patient_create_owner_is_caller new_patient (after 6))) _ _ Hc)
    as (pk & patient & Hfree & Hdb & Hu & _).
  exists pk, patient. auto.
Defined.

Lemma register_response_hides_password_witness :
  RegisterView.create register_a empty_db
  = ((dispatch (RegisterView.create register_a) empty_db).1,
     inr (dispatch (RegisterView.create register_a) empty_db).2)
  ∧ status (dispatch (RegisterView.create register_a) empty_db).2 = HTTP_201_CREATED
  ∧ ∃ body,
      data (dispatch (RegisterView.create register_a) empty_db).2 = Object body
      ∧ dom body = {[ "id"; "username"; "email" ]}%string
      ∧ body !! "password" = None.
Proof.
  assert (RegisterView.create register_a empty_db
          = ((dispatch (RegisterView.create register_a) empty_db).1,
             inr (dispatch (RegisterView.create register_a) empty_db).2)) as Hc
    by (vm_compute; reflexivity).
  split; [exact Hc|].
  exact (proj1 (register_response_hides_password register_a empty_db) _ _ Hc).
Defined.

Lemma register_failures_witness :
  (RegisterView.create register_a empty_db
   = (after 1, inr (dispatch (RegisterView.create register_a) empty_db).2)
   ∧ ∃ errors,
       RegisterView.create register_a_again (after 1)
       = (after 1, inl (ValidationError errors))
       ∧ is_Some (errors !! "username"))
  ∧ RegisterView.create register_without_email (after 2)
    = (after 2, inl (KeyError "email"))
  ∧ dispatch (RegisterView.create register_without_email) (after 2)
    = (after 2, mkResponse NoBody HTTP_500_INTERNAL_SERVER_ERROR)
  ∧ RegisterView.create register_ordinal_a empty_db
    = ((dispatch (RegisterView.create register_ordinal_a) empty_db).1,
       inr (dispatch (RegisterView.create register_ordinal_a) empty_db).2)
  ∧ RegisterView.create register_ordinal_a
      (dispatch (RegisterView.create register_ordinal_a) empty_db).1
    = ((dispatch (RegisterView.create register_ordinal_a) empty_db).1,
       inl IntegrityError).
Proof.
  split; [|split; [|split; [|split]]].
  - assert (RegisterView.create register_a empty_db
            = (after 1, inr (dispatch (RegisterView.create register_a) empty_db).2))
      as Hc by (vm_compute; reflexivity).
    split; [exact Hc|].
    destruct (proj1 (register_failures register_a empty_db) _ _ register_a_again
                (JStr "a") "a"%string Hc)
      as (errors & Hr & He & _); try (vm_compute; reflexivity).
    exists errors. auto.
  - apply (proj1 (proj2 (proj2 (proj2 (register_failures register_without_email
                                         (after 2)))))
             (JStr "c") "c"%string (JStr "pw-c") "pw-c"%string);
      try (vm_compute; reflexivity).
    assert (map_Forall (λ _ user, User.username user ≠ "c"%string) (users (after 2)))
      as Hall by (apply (bool_decide_unpack _); vm_compute; exact I).
    exact Hall.
  - apply (proj1 (proj2 (proj2 (proj2 (register_failures register_without_email
                                         (after 2)))))
             (JStr "c") "c"%string (JStr "pw-c") "pw-c"%string);
      try (vm_compute; reflexivity).
    assert (map_Forall (λ _ user, User.username user ≠ "c"%string) (users (after 2)))
      as Hall by (apply (bool_decide_unpack _); vm_compute; exact I).
    exact Hall.
  - vm_compute. reflexivity.
  - assert (RegisterView.create register_ordinal_a empty_db
            = ((dispatch (RegisterView.create register_ordinal_a) empty_db).1,
               inr (dispatch (RegisterView.create register_ordinal_a) empty_db).2))
      as Hc by (vm_compute; reflexivity).
    apply (proj2 (proj2 (proj2 (proj2 (register_failures register_ordinal_a empty_db))))
             _ _ register_ordinal_a (JStr ordinal_a) ordinal_a
             (JStr "o@x.org") "o@x.org"%string (JStr "pw-o") "pw-o"%string Hc);
      try (vm_compute; reflexivity).
    vm_compute. discriminate.
Defined.

Lemma mapping_create_checks_in_order_witness :
  PatientDoctorMappingViewSet.create
    (request 1 [("patient", JInt 9); ("doctor", JInt 7)]%string) (after 7)
  = (after 7, inl Http404)
  ∧ PatientDoctorMappingViewSet.create (map_1_1 2) (after 6)
    = (after 6, inr (mkResponse
                       (error_body "You do not have permission to assign this patient.")
                       HTTP_403_FORBIDDEN))
  ∧ PatientDoctorMappingViewSet.create (map_1_1 1) (after 7)
    = (after 7, inr (mkResponse
                       (error_body "This patient is already assigned to this doctor.")
                       HTTP_400_BAD_REQUEST)).
Proof.
  split; [|split].
  - pose proof (mapping_create_checks_in_order
                  (request 1 [("patient", JInt 9); ("doctor", JInt 7)]%string) (after 7))
      as (Habsent & Hfails & _).
    apply Hfails. apply (Habsent (Some 9)); vm_compute; reflexivity.
  - pose proof (mapping_create_checks_in_order (map_1_1 2) (after 6))
      as (_ & _ & Hforbidden & _).
    apply (Hforbidden (1, patient_1)); [vm_compute; reflexivity|vm_compute; discriminate].
  - pose proof (mapping_create_checks_in_order (map_1_1 1) (after 7))
      as (_ & _ & _ & Hdoctor & _).
    destruct (Hdoctor (1, patient_1)) as (_ & _ & Hfound);
      [vm_compute; reflexivity|vm_compute; reflexivity|].
    destruct (Hfound (1, doctor_1)) as [Hlinked _]; [vm_compute; reflexivity|].
    apply Hlinked. exists 1, mapping_1. split; [vm_compute; reflexivity|done].
Defined.

Lemma mapping_update_duplicates_pair_witness :
  serve (CreateMapping (map_1_1 1)) (after 7)
  = (after 7, mkResponse
                (error_body "This patient is already assigned to this doctor.")
                HTTP_400_BAD_REQUEST)
  ∧ reachable two_mappings
  ∧ mappings two_mappings = {[ 1 := mapping_1; 2 := mapping_2 ]}
  ∧ status (serve (UpdateMapping (map_1_1 1) 2 false) two_mappings).2 = HTTP_200_OK
  ∧ mappings (serve (UpdateMapping (map_1_1 1) 2 false) two_mappings).1
    = {[ 1 := mapping_1; 2 := mapping_1 ]}
  ∧ reachable (serve (UpdateMapping (map_1_1 1) 2 false) two_mappings).1
  ∧ ¬ no_duplicate_pair (serve (UpdateMapping (map_1_1 1) 2 false) two_mappings).1.
Proof.
  assert (reachable two_mappings) as Hr
    by apply reachable_run, reachable_run, reachable_empty.
  split.
  { apply (proj1 (proj2 (proj2 mapping_update_duplicates_pair))
             (map_1_1 1) (after 7) (1, patient_1) (1, doctor_1) 1 mapping_1);
      vm_compute; reflexivity. }
  split; [exact Hr|]. split; [vm_compute; reflexivity|].
  split; [vm_compute; reflexivity|]. split; [vm_compute; reflexivity|].
  split; [by apply reachable_serve|].
  apply (proj2 (proj2 (proj2 (proj2 mapping_update_duplicates_pair)))
           (map_1_1 1) 2 false two_mappings mapping_2 1 mapping_1 patient_1 doctor_1);
    try (vm_compute; reflexivity).
  intros [=].
Defined.

Lemma patient_update_by_other_user_witness :
  patients (after 7) !! 1 = Some patient_1
  ∧ Patient.user patient_1 ≠ request_user (request 2 [("name", JStr "X")]%string)
  ∧ serve (UpdatePatient (request 2 [("name", JStr "X")]%string) 1 false) (after 7)
    = (after 7, mkResponse (Object {[ "detail" := JStr "Not found." ]})
                  HTTP_404_NOT_FOUND).
Proof.
  assert (patients (after 7) !! 1 = Some patient_1) as Hp by (vm_compute; reflexivity).
  assert (Patient.user patient_1 ≠ request_user (request 2 [("name", JStr "X")]%string))
    as Hu by (vm_compute; discriminate).
  split; [exact Hp|]. split; [exact Hu|].
  exact (proj1 (proj2 (patient_update_by_other_user
                         (request 2 [("name", JStr "X")]%string) 1 false (after 7)
                         patient_1 Hp Hu))).
Defined.

Lemma mapping_destroy_by_other_user_witness :
  mappings (after 7) !! 1 = Some mapping_1
  ∧ serve (DestroyMapping (request 2 []) 1) (after 7)
    = (after 7, mkResponse (Object {[ "detail" := JStr "Not found." ]})
                  HTTP_404_NOT_FOUND)
  ∧ mappings (serve (DestroyMapping (request 2 []) 1) (after 7)).1 !! 1
    = Some mapping_1
  ∧ serve (DestroyMapping (request 1 []) 1) (after 7)
    = (set_mappings (delete 1) (after 7), mkResponse NoBody HTTP_204_NO_CONTENT).
Proof.
  assert (mappings (after 7) !! 1 = Some mapping_1) as Hm by (vm_compute; reflexivity).
  split; [exact Hm|].
  destruct (proj1 (mapping_destroy_by_other_user (request 2 []) 1 (after 7) mapping_1 Hm))
    as (_ & _ & Hstays & Hnot_found); [vm_compute; discriminate|].
  split; [apply Hnot_found; reflexivity|]. split; [exact Hstays|].
  apply (proj2 (mapping_destroy_by_other_user (request 1 []) 1 (after 7) mapping_1 Hm));
    vm_compute; reflexivity.
Defined.

Lemma ownership_check_unreachable_witness :
  PatientViewSet.update (request 2 [("name", JStr "X")]%string) 1 false (after 7)
  = (after 7, inl Http404)
  ∧ PatientDoctorMappingViewSet.destroy (request 2 []) 1 (after 7)
    = (after 7, inl Http404).
Proof.
  pose proof (ownership_check_unreachable (request 2 [("name", JStr "X")]%string) 1 (after 7))
    as (_ & _ & Hpatient & _).
  pose proof (ownership_check_unreachable (request 2 []) 1 (after 7))
    as (_ & _ & _ & _ & _ & Hmapping).
  split.
  - apply (Hpatient false patient_1); [vm_compute; reflexivity|vm_compute; discriminate].
  - destruct (Hmapping mapping_1) as [_ Hnot_found];
      [vm_compute; reflexivity|vm_compute; discriminate|].
    apply (Hnot_found (∅ : gmap Z PatientDoctorMapping.t)). vm_compute. reflexivity.
Defined.

(** * The further properties on the sample installation *)

Lemma user_queryset_scoped_witness :
  UserViewSet.is_staff (after 7) (Authenticated 2) = false
  ∧ UserViewSet.retrieve (Authenticated 2) 1 (after 7) = (after 7, inl Http404).
Proof.
  assert (UserViewSet.is_staff (after 7) (Authenticated 2) = false) as Hs
    by (vm_compute; reflexivity).
  split; [exact Hs|].
  apply (proj1 (proj2 (proj2 (user_queryset_scoped (Authenticated 2) (after 7) 1))));
    [exact Hs|discriminate].
Defined.

Lemma patient_retrieve_scoped_witness :
  patients (after 7) !! 1 = Some patient_1
  ∧ PatientViewSet.retrieve (request 2 []) 1 (after 7) = (after 7, inl Http404)
  ∧ PatientViewSet.retrieve (request 1 []) 1 (after 7)
    = (after 7, inr (mkResponse (Object (PatientSerializer.data (after 7) (1, patient_1)))
                       HTTP_200_OK)).
Proof.
  assert (patients (after 7) !! 1 = Some patient_1) as Hp by (vm_compute; reflexivity).
  split; [exact Hp|]. split.
  - apply (proj1 (proj2 (patient_retrieve_scoped (request 2 []) 1 (after 7))) patient_1 Hp).
    vm_compute. discriminate.
  - apply (proj1 (patient_retrieve_scoped (request 1 []) 1 (after 7)) patient_1 Hp).
    reflexivity.
Defined.

Lemma patient_update_by_owner_witness :
  PatientViewSet.update (request 1 [("name", JStr "P1b")]%string) 1 false (after 7)
  = ((serve (UpdatePatient (request 1 [("name", JStr "P1b")]%string) 1 false) (after 7)).1,
     inr (serve (UpdatePatient (request 1 [("name", JStr "P1b")]%string) 1 false) (after 7)).2)
  ∧ ∃ patient attrs,
      patients (after 7) !! 1 = Some patient
      ∧ Patient.user patient = 1
      ∧ (serve (UpdatePatient (request 1 [("name", JStr "P1b")]%string) 1 false) (after 7)).1
        = set_patients
            (insert 1 (Patient.mk (Patient.user patient) attrs
                         (Patient.created_at patient) 1700000000))
            (after 7).
Proof.
  assert (PatientViewSet.update (request 1 [("name", JStr "P1b")]%string) 1 false (after 7)
          = ((serve (UpdatePatient (request 1 [("name", JStr "P1b")]%string) 1 false)
                (after 7)).1,
             inr (serve (UpdatePatient (request 1 [("name", JStr "P1b")]%string) 1 false)
                    (after 7)).2)) as Hu by (vm_compute; reflexivity).
  split; [exact Hu|].
  destruct (proj1 (patient_update_by_owner
                     (request 1 [("name", JStr "P1b")]%string) 1 false (after 7)) _ _ Hu)
    as (patient & attrs & Hp & Ho & Hdb & _).
  exists patient, attrs. auto.
Defined.

Lemma patient_patch_empty_witness :
  patients (after 7) !! 1 = Some patient_1
  ∧ (PatientViewSet.update (request 1 []) 1 true (after 7)).1
    = set_patients
        (insert 1 (Patient.mk (Patient.user patient_1) (Patient.attrs patient_1)
                     (Patient.created_at patient_1) 1700000000))
        (after 7).
Proof.
  assert (patients (after 7) !! 1 = Some patient_1) as Hp by (vm_compute; reflexivity).
  split; [exact Hp|].
  by rewrite (patient_patch_empty (request 1 []) 1 (after 7) patient_1 Hp
                eq_refl eq_refl).
Defined.

Lemma patient_required_attribute_witness :
  ∃ errors,
    PatientViewSet.create (request 1 []) (after 6)
    = (after 6, inl (ValidationError errors))
    ∧ is_Some (errors !! "name").
Proof.
  assert (CharField "name" true false text ∈ Patient_attrs) as Hf
    by apply list_elem_of_here.
  assert (field_name (CharField "name" true false text)
          ∉ PatientSerializer.read_only_fields) as Hn
    by (apply (bool_decide_unpack _); vm_compute; exact I).
  destruct (proj1 (patient_required_attribute (request 1 []) (after 6)
                     (CharField "name" true false text)
                     Hf eq_refl eq_refl Hn eq_refl))
    as (errors & Hc & He & _).
  exists errors. auto.
Defined.

Lemma patient_create_timestamps_witness :
  PatientViewSet.create new_patient (after 6)
  = ((serve (CreatePatient new_patient) (after 6)).1,
     inr (serve (CreatePatient new_patient) (after 6)).2)
  ∧ ∃ pk patient,
      patients (serve (CreatePatient new_patient) (after 6)).1 !! pk = Some patient
      ∧ Patient.created_at patient = 1700000000.
Proof.
  assert (PatientViewSet.create new_patient (after 6)
          = ((serve (CreatePatient new_patient) (after 6)).1,
             inr (serve (CreatePatient new_patient) (after 6)).2)) as Hc
    by (vm_compute; reflexivity).
  split; [exact Hc|].
  destruct (proj2 (patient_create_timestamps new_patient (after 6)) _ _ Hc)
    as (pk & patient & Hp & _ & Ht & _).
  exists pk, patient. auto.
Defined.

Lemma patient_create_then_list_witness :
  PatientViewSet.create new_patient (after 6)
  = ((serve (CreatePatient new_patient) (after 6)).1,
     inr (serve (CreatePatient new_patient) (after 6)).2)
  ∧ (PatientViewSet.list (request 2 []) (serve (CreatePatient new_patient) (after 6)).1).2
    = (PatientViewSet.list (request 2 []) (after 6)).2.
Proof.
  assert (PatientViewSet.create new_patient (after 6)
          = ((serve (CreatePatient new_patient) (after 6)).1,
             inr (serve (CreatePatient new_patient) (after 6)).2)) as Hc
    by (vm_compute; reflexivity).
  split; [exact Hc|].
  destruct (patient_create_then_list new_patient (after 6) _ _ Hc)
    as (pk & patient & _ & _ & Hother).
  apply Hother. vm_compute. discriminate.
Defined.

Lemma doctor_create_and_list_witness :
  DoctorViewSet.create (request 2 [("name", JStr "E")]%string) (after 7)
  = ((serve (CreateDoctor (request 2 [("name", JStr "E")]%string)) (after 7)).1,
     inr (serve (CreateDoctor (request 2 [("name", JStr "E")]%string)) (after 7)).2)
  ∧ ∃ pk doctor,
      doctors (after 7) !! pk = None
      ∧ (serve (CreateDoctor (request 2 [("name", JStr "E")]%string)) (after 7)).1
        = set_doctors (insert pk doctor) (after 7)
      ∧ ∃ rows,
          DoctorViewSet.list (request 1 [])
            (serve (CreateDoctor (request 2 [("name", JStr "E")]%string)) (after 7)).1
          = ((serve (CreateDoctor (request 2 [("name", JStr "E")]%string)) (after 7)).1,
             inr (mkResponse (Array rows) HTTP_200_OK))
          ∧ DoctorSerializer.data (pk, doctor) ∈ rows.
Proof.
  assert (DoctorViewSet.create (request 2 [("name", JStr "E")]%string) (after 7)
          = ((serve (CreateDoctor (request 2 [("name", JStr "E")]%string)) (after 7)).1,
             inr (serve (CreateDoctor (request 2 [("name", JStr "E")]%string))
                    (after 7)).2)) as Hc by (vm_compute; reflexivity).
  split; [exact Hc|].
  destruct (proj1 (doctor_create_and_list (request 2 [("name", JStr "E")]%string) (after 7))
              _ _ Hc) as (pk & doctor & Hfree & Hdb & _ & _ & _ & Hlist).
  exists pk, doctor. split; [exact Hfree|]. split; [exact Hdb|].
  apply (Hlist (request 1 [])).
Defined.

Lemma mapping_create_missing_ids_witness :
  request_data (request 1 [("doctor", JInt 1)]%string) !! "patient" = None
  ∧ PatientDoctorMappingViewSet.create (request 1 [("doctor", JInt 1)]%string) (after 6)
    = (after 6, inl Http404).
Proof.
  assert (request_data (request 1 [("doctor", JInt 1)]%string) !! "patient" = None)
    as Hd by (vm_compute; reflexivity).
  split; [exact Hd|].
  exact (proj1 (proj1 (mapping_create_missing_ids
                         (request 1 [("doctor", JInt 1)]%string) (after 6))
                  (or_introl Hd))).
Defined.

Lemma mapping_destroy_patient_id_parameter_witness :
  mappings (after 7) !! 1 = Some mapping_1
  ∧ PatientDoctorMappingViewSet.destroy
      (request_with 1 [("patient_id", "2")]%string) 1 (after 7)
    = (after 7, inl Http404)
  ∧ PatientDoctorMappingViewSet.destroy
      (request_with 1 [("patient_id", "1")]%string) 1 (after 7)
    = (set_mappings (delete 1) (after 7), inr (mkResponse NoBody HTTP_204_NO_CONTENT)).
Proof.
  assert (mappings (after 7) !! 1 = Some mapping_1) as Hm by (vm_compute; reflexivity).
  split; [exact Hm|]. split.
  - apply (proj1 (mapping_destroy_patient_id_parameter
                    (request_with 1 [("patient_id", "2")]%string) 1 (after 7) mapping_1
                    "2"%string Hm eq_refl eq_refl ltac:(discriminate)) 2);
      [reflexivity|vm_compute; discriminate].
  - apply (proj1 (proj2 (mapping_destroy_patient_id_parameter
                    (request_with 1 [("patient_id", "1")]%string) 1 (after 7) mapping_1
                    "1"%string Hm eq_refl eq_refl ltac:(discriminate)))).
    reflexivity.
Defined.

Lemma mapping_destroy_then_create_witness :
  no_duplicate_pair (after 7)
  ∧ mappings (after 7) !! 1 = Some mapping_1
  ∧ PatientDoctorMappingViewSet.create (map_1_1 1) (after 7)
    = (after 7, inr (mkResponse
                       (error_body "This patient is already assigned to this doctor.")
                       HTTP_400_BAD_REQUEST))
  ∧ ∃ body,
      PatientDoctorMappingViewSet.create (map_1_1 1) (set_mappings (delete 1) (after 7))
      = (set_mappings
           (insert (next_pk (delete 1 (mappings (after 7))))
              (PatientDoctorMapping.mk 1 1 (request_now (map_1_1 1))))
           (set_mappings (delete 1) (after 7)),
         inr (mkResponse body HTTP_201_CREATED)).
Proof.
  assert (no_duplicate_pair (after 7)) as Hinv.
  { assert (mappings (after 7) = {[ 1 := mapping_1 ]}) as E by (vm_compute; reflexivity).
    intros k1 k2 m1 m2. rewrite E.
    by intros [<- _]%lookup_singleton_Some [<- _]%lookup_singleton_Some. }
  assert (mappings (after 7) !! 1 = Some mapping_1) as Hm by (vm_compute; reflexivity).
  split; [exact Hinv|]. split; [exact Hm|].
  apply (mapping_destroy_then_create (map_1_1 1) (after 7) 1 mapping_1
           (1, patient_1) (1, doctor_1) Hinv Hm);
    vm_compute; reflexivity.
Defined.

Lemma mapping_create_then_list_witness :
  PatientDoctorMappingViewSet.create (map_1_1 1) (after 6)
  = ((serve (CreateMapping (map_1_1 1)) (after 6)).1,
     inr (mkResponse (data (serve (CreateMapping (map_1_1 1)) (after 6)).2)
            HTTP_201_CREATED))
  ∧ ∃ pk mapping,
      mappings (after 6) !! pk = None
      ∧ (serve (CreateMapping (map_1_1 1)) (after 6)).1
        = set_mappings (insert pk mapping) (after 6)
      ∧ PatientDoctorMapping.assigned_date mapping = 1700000000
      ∧ ∃ rows,
          PatientDoctorMappingViewSet.list (request 1 [])
            (serve (CreateMapping (map_1_1 1)) (after 6)).1
          = ((serve (CreateMapping (map_1_1 1)) (after 6)).1,
             inr (mkResponse (Array rows) HTTP_200_OK))
          ∧ PatientDoctorMappingSerializer.data
              (serve (CreateMapping (map_1_1 1)) (after 6)).1 (pk, mapping) ∈ rows.
Proof.
  assert (PatientDoctorMappingViewSet.create (map_1_1 1) (after 6)
          = ((serve (CreateMapping (map_1_1 1)) (after 6)).1,
             inr (mkResponse (data (serve (CreateMapping (map_1_1 1)) (after 6)).2)
                    HTTP_201_CREATED))) as Hc by (vm_compute; reflexivity).
  split; [exact Hc|].
  destruct (mapping_create_then_list (map_1_1 1) (after 6) _ _ Hc)
    as (pk & mapping & Hfree & Hdb & Hdate & _ & Hown & _).
  exists pk, mapping. split; [exact Hfree|]. split; [exact Hdb|]. split; [exact Hdate|].
  apply (Hown (request 1 [])); reflexivity.
Defined.

Lemma register_then_retrieve_witness :
  RegisterView.create register_a empty_db
  = ((dispatch (RegisterView.create register_a) empty_db).1,
     inr (dispatch (RegisterView.create register_a) empty_db).2)
  ∧ ∃ pk user,
      (dispatch (RegisterView.create register_a) empty_db).1
      = set_users (insert pk user) empty_db
      ∧ User.is_staff user = false
      ∧ UserViewSet.retrieve (Authenticated pk) pk
          (dispatch (RegisterView.create register_a) empty_db).1
        = ((dispatch (RegisterView.create register_a) empty_db).1,
           inr (mkResponse (data (dispatch (RegisterView.create register_a) empty_db).2)
                  HTTP_200_OK)).
Proof.
  assert (RegisterView.create register_a empty_db
          = ((dispatch (RegisterView.create register_a) empty_db).1,
             inr (dispatch (RegisterView.create register_a) empty_db).2)) as Hc
    by (vm_compute; reflexivity).
  split; [exact Hc|].
  destruct (register_then_retrieve register_a empty_db _ _ Hc)
    as (pk & user & _ & Hdb & Hs & Hr & _).
  exists pk, user. auto.
Defined.

Lemma mapping_create_malformed_id_witness :
  py_int "abc" = None
  ∧ PatientDoctorMappingViewSet.create
      (request 1 [("patient", JStr "abc"); ("doctor", JInt 1)]%string) (after 6)
    = (after 6, inl ValueError).
Proof.
  assert (py_int "abc" = None) as Hs by reflexivity.
  split; [exact Hs|].
  apply (proj1 (mapping_create_malformed_id
                  (request 1 [("patient", JStr "abc"); ("doctor", JInt 1)]%string)
                  (after 6) "abc"%string Hs)).
  vm_compute. reflexivity.
Defined.
